(** * teller/http.go: the HTTP front door of the teller service

    A shallow embedding of [src/teller/http.go]: the configuration
    validator, the wiring of the security middleware in [Run], the
    listener life cycle ([Run] / [Shutdown]) and the two API handlers
    ([BindHandler], [StatusHandler]) together with the helpers they
    share ([validMethod], [verifySkycoinAddress], [readyToStart],
    [errorResponse]).

    Go values are modelled as follows:
    - [string] is [String.string]; the empty string is the zero value;
    - [error] is [option string]: [None] is [nil], [Some msg] an error
      whose [Error()] text is [msg];
    - [time.Time] is an instant on the time line ([Z]); [UTC()] changes
      the location only, never the instant;
    - [http.Header] and [url.Values] are maps from a key to the list of
      its values;
    - a [chan struct{}] field is nil, open or closed;
    - a run-time panic is an explicit outcome. *)

From Stdlib Require Import ZArith String List Bool Lia.
From stdpp Require Import base option strings list gmap.

Local Open Scope string_scope.
Local Open Scope list_scope.
Local Open Scope Z_scope.

(** ** Go basics *)

(** A Go [error] value. *)
Definition error : Type := option string.

(** [errors.New]. *)
Definition errors_New (msg : string) : error := Some msg.

(** [err != nil]. *)
Definition is_err (e : error) : bool :=
  match e with Some _ => true | None => false end.

(** [s == ""] *)
Definition str_empty (s : string) : bool := String.eqb s "".

(** [time.Time], reduced to the instant it denotes (nanoseconds). *)
Definition Time : Type := Z.

(** [t.UTC()]: same instant, location set to UTC. *)
Definition UTC (t : Time) : Time := t.

(** [t.After(u)]: the instant [t] is strictly after [u]. *)
Definition After (t u : Time) : bool := u <? t.

(** [time.Duration], in nanoseconds. *)
Definition Duration : Type := Z.
Definition Second : Duration := 1000000000.

(** [strings.Join]. *)
Fixpoint strings_Join (elems : list string) (sep : string) : string :=
  match elems with
  | [] => ""
  | [x] => x
  | x :: rest => x +:+ sep +:+ strings_Join rest sep
  end.

(** The result of a computation that may panic. *)
Inductive outcome (A : Type) : Type :=
| Returned (a : A)
| Panicked.
Arguments Returned {A} a.
Arguments Panicked {A}.

(** ** Constants of the package *)

Definition shutdownTimeout : Duration := Second * 5.
Definition serverReadTimeout : Duration := Second * 10.
Definition serverWriteTimeout : Duration := Second * 60.
Definition serverIdleTimeout : Duration := Second * 120.
Definition tlsAutoCertCache : string := "cert-cache".

Definition StatusBadRequest : nat := 400.
Definition StatusForbidden : nat := 403.
Definition StatusMethodNotAllowed : nat := 405.
Definition StatusUnsupportedMediaType : nat := 415.
Definition StatusInternalServerError : nat := 500.
Definition StatusOK : nat := 200.
Definition MethodGet : string := "GET".
Definition MethodPost : string := "POST".

(** ** Configuration

    [ThrottleDuration] is [Throttle.Duration] and [ConfigThrottle] is
    [HTTPConfig.Throttle]. *)

Record Throttle : Type := {
  Max : Z;
  ThrottleDuration : Duration
}.

Record HTTPConfig : Type := {
  HTTPAddr : string;
  HTTPSAddr : string;
  StaticDir : string;
  StartAt : Time;
  AutoTLSHost : string;
  TLSCert : string;
  TLSKey : string;
  ConfigThrottle : Throttle
}.

(** [HTTPConfig.Validate]: the five checks, in the order of the source. *)
Definition Validate (c : HTTPConfig) : error :=
  if str_empty (HTTPAddr c) && str_empty (HTTPSAddr c) then
    errors_New "at least one of -http-service-addr, -https-service-addr must be set"
  else if negb (str_empty (HTTPSAddr c)) && str_empty (AutoTLSHost c)
          && (str_empty (TLSCert c) || str_empty (TLSKey c)) then
    errors_New "when using -tls, either -auto-tls-host or both -tls-cert and -tls-key must be set"
  else if (str_empty (TLSCert c) && negb (str_empty (TLSKey c)))
          || (negb (str_empty (TLSCert c)) && str_empty (TLSKey c)) then
    errors_New "-tls-cert and -tls-key must be set or unset together"
  else if negb (str_empty (AutoTLSHost c))
          && (negb (str_empty (TLSKey c)) || negb (str_empty (TLSCert c))) then
    errors_New "either use -auto-tls-host or both -tls-key and -tls-cert"
  else if str_empty (HTTPSAddr c)
          && (negb (str_empty (AutoTLSHost c)) || negb (str_empty (TLSKey c))
              || negb (str_empty (TLSCert c))) then
    errors_New "-auto-tls-host or -tls-key or -tls-cert is set but -tls is not enabled"
  else None.

(** ** Logging

    A [logrus] entry, reduced to its level, the ["status"] field, the
    error attached with [WithError] and the message.  The other
    request-scoped fields ([prefix], [config], [bindReq], ...) carry no
    control flow and are left out. *)

Inductive log_level : Type := InfoLevel | ErrorLevel.

Record log_entry : Type := {
  log_level_of : log_level;
  log_status : option nat;
  log_error : error;
  log_msg : string
}.

Definition log_Info (msg : string) : log_entry :=
  {| log_level_of := InfoLevel; log_status := None; log_error := None; log_msg := msg |}.

Definition log_Error (err : error) (msg : string) : log_entry :=
  {| log_level_of := ErrorLevel; log_status := None; log_error := err; log_msg := msg |}.

(** ** Security middleware *)

(** [secure.Options], the fields that [configureSecureMiddleware] sets. *)
Record secure_Options : Type := {
  AllowedHosts : list string;
  SSLRedirect : bool;
  SSLHost : string;
  STSSeconds : Z;
  STSIncludeSubdomains : bool;
  STSPreload : bool;
  FrameDeny : bool;
  ContentTypeNosniff : bool;
  BrowserXssFilter : bool;
  ReferrerPolicy : string
}.

(** [configureSecureMiddleware]; a [*secure.Secure] is identified with
    the options it was built from. *)
Definition configureSecureMiddleware (sslHost : string) (allowedHosts : list string)
  : secure_Options :=
  let sslRedirect := true in
  let sslRedirect := if str_empty sslHost then false else sslRedirect in
  {| AllowedHosts := allowedHosts;
     SSLRedirect := sslRedirect;
     SSLHost := sslHost;
     STSSeconds := 31536000;
     STSIncludeSubdomains := false;
     STSPreload := false;
     FrameDeny := true;
     ContentTypeNosniff := true;
     BrowserXssFilter := true;
     ReferrerPolicy := "no-referrer" |}.

(** ** Listeners *)

(** The handler chain given to a listener: the router of [setupMux]
    (described by the static directory and the throttle of its API
    routes) wrapped in the security middleware. *)
Record Handler : Type := {
  handlerSecure : secure_Options;
  handlerStaticDir : string;
  handlerThrottle : Throttle
}.

(** [tls.Config] as [Run] fills it: certificates come from an autocert
    manager restricted to one host and caching in one directory. *)
Record TLSConfig : Type := {
  autocertHost : string;
  autocertCache : string
}.

(** [http.Server], the fields this package sets. *)
Record Server : Type := {
  Addr : string;
  ServerHandler : Handler;
  ReadTimeout : Duration;
  WriteTimeout : Duration;
  IdleTimeout : Duration;
  ServerTLSConfig : option TLSConfig
}.

Definition setupHTTPListener (addr : string) (handler : Handler) : Server :=
  {| Addr := addr;
     ServerHandler := handler;
     ReadTimeout := serverReadTimeout;
     WriteTimeout := serverWriteTimeout;
     IdleTimeout := serverIdleTimeout;
     ServerTLSConfig := None |}.

(** A [chan struct{}] field: the nil channel, or a channel that is open
    or has been closed. *)
Inductive chan : Type := ChanNil | ChanOpen | ChanClosed.

(** [httpServer]; [None] is a nil listener. *)
Record httpServer : Type := {
  Config : HTTPConfig;
  httpListener : option Server;
  httpsListener : option Server;
  quit : chan
}.

Definition newHTTPServer (cfg : HTTPConfig) : httpServer :=
  {| Config := cfg; httpListener := None; httpsListener := None; quit := ChanNil |}.

Definition set_quit (q : chan) (hs : httpServer) : httpServer :=
  {| Config := Config hs; httpListener := httpListener hs;
     httpsListener := httpsListener hs; quit := q |}.

Definition set_httpListener (ln : option Server) (hs : httpServer) : httpServer :=
  {| Config := Config hs; httpListener := ln;
     httpsListener := httpsListener hs; quit := quit hs |}.

Definition set_httpsListener (ln : option Server) (hs : httpServer) : httpServer :=
  {| Config := Config hs; httpListener := httpListener hs;
     httpsListener := ln; quit := quit hs |}.

(** What the life cycle does to the outside world, in order. *)
Inductive event : Type :=
| EvLog (e : log_entry)
| EvCloseQuit
| EvServerShutdown (proto : string) (srv : Server) (timeout : Duration).

(** *** Run *)

(** Lines 116-130 of [Run]: the pair [(sslHost, allowedHosts)]. *)
Definition Run_hosts (cfg : HTTPConfig) : string * list string :=
  let allowedHosts : list string := [] in
  if str_empty (AutoTLSHost cfg) then (HTTPSAddr cfg, allowedHosts)
  else (AutoTLSHost cfg, [AutoTLSHost cfg]).

(** The security middleware [Run] builds (line 142). *)
Definition Run_secureMiddleware (cfg : HTTPConfig) : secure_Options :=
  let '(sslHost, allowedHosts) := Run_hosts cfg in
  configureSecureMiddleware sslHost allowedHosts.

(** [mux = secureMiddleware.Handler(hs.setupMux())]. *)
Definition Run_mux (cfg : HTTPConfig) : Handler :=
  {| handlerSecure := Run_secureMiddleware cfg;
     handlerStaticDir := StaticDir cfg;
     handlerThrottle := ConfigThrottle cfg |}.

(** What the [select] of the two-listener branch received. [errC] only
    carries non-nil errors. *)
Inductive select_choice : Type :=
| RecvErr (err : string)
| RecvQuit
| RecvDone.

(** The outside world of one [Run]: what the blocking listener calls
    return, what the [select] over [errC], [hs.quit] and [done] picks,
    and what the goroutines running beside the blocked [Run] (a
    [Shutdown]) have done to the server by the time the listener call
    returns. *)
Record run_world : Type := {
  ListenAndServe : Server -> error;
  ListenAndServeTLS : Server -> string -> string -> error;
  dualSelect : select_choice;
  meanwhile : httpServer -> httpServer
}.

(** The closure [handleListenErr], applied to the result [ferr] of
    [f()]; [hs] is the server as it is when the [select] runs.  A
    receive from a closed channel is ready, a receive from an open or
    nil channel is not, and then [default] is taken. *)
Definition handleListenErr (hs : httpServer) (ferr : error) : list event * error :=
  match ferr with
  | Some err =>
      match quit hs with
      | ChanClosed => ([], None)
      | ChanOpen | ChanNil =>
          ([EvLog (log_Error (Some err) "ListenAndServe or ListenAndServeTLS error")],
           Some ("http serve failed: " +:+ err))
      end
  | None => ([], None)
  end.

(** The HTTPS listener of lines 165-187 and the cert/key pair handed to
    [ListenAndServeTLS]. *)
Definition Run_httpsListener (cfg : HTTPConfig) : Server * string * string :=
  let ln := setupHTTPListener (HTTPSAddr cfg) (Run_mux cfg) in
  if negb (str_empty (AutoTLSHost cfg)) then
    ({| Addr := Addr ln; ServerHandler := ServerHandler ln;
        ReadTimeout := ReadTimeout ln; WriteTimeout := WriteTimeout ln;
        IdleTimeout := IdleTimeout ln;
        ServerTLSConfig := Some {| autocertHost := AutoTLSHost cfg;
                                   autocertCache := tlsAutoCertCache |} |}, "", "")
  else (ln, TLSCert cfg, TLSKey cfg).

(** The server once [Run] has created the gate and the listeners, just
    before it blocks. *)
Definition Run_setup (hs : httpServer) : httpServer :=
  let cfg := Config hs in
  let hs := set_quit ChanOpen hs in
  let hs := if negb (str_empty (HTTPAddr cfg))
            then set_httpListener (Some (setupHTTPListener (HTTPAddr cfg) (Run_mux cfg))) hs
            else hs in
  if negb (str_empty (HTTPSAddr cfg))
  then set_httpsListener (Some (fst (fst (Run_httpsListener cfg)))) hs
  else hs.

(** The function [f] handed to [handleListenErr] in each of the three
    branches; calling a method of a nil listener panics. *)
Definition Run_listen (w : run_world) (hs : httpServer) : outcome error :=
  let cfg := Config hs in
  if negb (str_empty (HTTPSAddr cfg)) then
    let '(_, tlsCert, tlsKey) := Run_httpsListener cfg in
    if str_empty (HTTPAddr cfg) then
      match httpsListener hs with
      | Some ln => Returned (ListenAndServeTLS w ln tlsCert tlsKey)
      | None => Panicked
      end
    else
      match dualSelect w with
      | RecvErr err => Returned (Some err)
      | RecvQuit => Returned None
      | RecvDone => Returned None
      end
  else
    match httpListener hs with
    | Some ln => Returned (ListenAndServe w ln)
    | None => Panicked
    end.

(** Log lines written before the listeners start. *)
Definition Run_startLog (cfg : HTTPConfig) : list event :=
  [EvLog (log_Info "HTTP service start"); EvLog (log_Info "Configured")]
  ++ (if negb (str_empty (HTTPSAddr cfg)) then
        EvLog (log_Info "Using TLS")
        :: (if negb (str_empty (AutoTLSHost cfg))
            then [EvLog (log_Info "Using Let's Encrypt autocert")] else [])
      else []).

(** [httpServer.Run]: the events, the server afterwards and the result. *)
Definition Run (w : run_world) (hs : httpServer)
  : list event * httpServer * outcome error :=
  let hs1 := Run_setup hs in
  let closed := [EvLog (log_Info "HTTP service closed")] in
  match Run_listen w hs1 with
  | Panicked => (Run_startLog (Config hs) ++ closed, hs1, Panicked)
  | Returned ferr =>
      let hs2 := meanwhile w hs1 in
      let '(evs, err) := handleListenErr hs2 ferr in
      (Run_startLog (Config hs) ++ evs ++ closed, hs2, Returned err)
  end.

(** *** Shutdown *)

(** [if hs.quit != nil { close(hs.quit) }]; closing a closed channel
    panics. *)
Definition Shutdown_close (hs : httpServer) : list event * outcome httpServer :=
  match quit hs with
  | ChanNil => ([], Returned hs)
  | ChanOpen => ([EvCloseQuit], Returned (set_quit ChanClosed hs))
  | ChanClosed => ([], Panicked)
  end.

(** The closure [shutdown] of [Shutdown]; [srvShutdown] is
    [http.Server.Shutdown] under the 5 s context. *)
Definition shutdown (srvShutdown : Server -> error) (proto : string) (ln : option Server)
  : list event :=
  match ln with
  | None => []
  | Some srv =>
      EvLog (log_Info "Shutting down server")
      :: EvServerShutdown proto srv shutdownTimeout
      :: match srvShutdown srv with
         | Some err => [EvLog (log_Error (Some err) "HTTP server shutdown error")]
         | None => []
         end
  end.

(** The two drain calls. *)
Definition Shutdown_drain (srvShutdown : Server -> error) (hs : httpServer) : list event :=
  shutdown srvShutdown "HTTP" (httpListener hs)
  ++ shutdown srvShutdown "HTTPS" (httpsListener hs).

(** [httpServer.Shutdown]. *)
Definition Shutdown (srvShutdown : Server -> error) (hs : httpServer)
  : list event * outcome httpServer :=
  match Shutdown_close hs with
  | (evs, Panicked) => (evs, Panicked)
  | (evs, Returned hs1) =>
      (evs ++ Shutdown_drain srvShutdown hs1, Returned (set_quit ChanNil hs1))
  end.

(** ** HTTP requests and responses *)

(** [http.Header] / [url.Values]. *)
Abbreviation Values := (gmap string (list string)).

(** [Header.Get] / [Values.Get]: the first value of the key, or [""]. *)
Definition Values_Get (key : string) (h : Values) : string :=
  match h !! key with
  | Some (v :: _) => v
  | _ => ""
  end.

(** [Header.Set]. *)
Definition Values_Set (key value : string) (h : Values) : Values :=
  <[key := [value]]> h.

(** [bindRequest]; [ReqCoinType] is its field [CoinType] (the name
    [CoinType] is kept for [BindResponse]). *)
Record bindRequest : Type := {
  SkyAddr : string;
  ReqCoinType : string
}.

(** What [json.NewDecoder(r.Body).Decode(&bindReq)] makes of the request
    body: an error; the literal [null], which sets the pointer [bindReq]
    to nil; or a filled [bindRequest], where a field absent from the
    object keeps its zero value [""]. *)
Inductive decode_result : Type :=
| DecodeError (err : string)
| DecodeNull
| Decoded (req : bindRequest).

(** [http.Request], the parts the handlers read. *)
Record Request : Type := {
  Method : string;
  ReqHeader : Values;
  Query : Values;
  Body : decode_result
}.

(** A JSON document. *)
#[warnings="-register-all"]
Inductive json : Type :=
| JString (s : string)
| JArray (items : list json)
| JObject (fields : list (string * json)).

(** The member [key] of a JSON object. *)
Fixpoint field_lookup (key : string) (fields : list (string * json)) : option json :=
  match fields with
  | [] => None
  | (k, v) :: rest => if String.eqb k key then Some v else field_lookup key rest
  end.

Definition json_field (key : string) (j : json) : option json :=
  match j with
  | JObject fields => field_lookup key fields
  | _ => None
  end.

(** One body written to the client: the error envelope of
    [httputil.ErrResponse] with the status and the message arguments it
    was given, or a JSON document written by [httputil.JSONResponse]. *)
Inductive body : Type :=
| ErrorBody (code : nat) (errorMsg : list string)
| JSONBody (doc : json).

Definition is_error_body (b : body) : bool :=
  match b with ErrorBody _ _ => true | JSONBody _ => false end.

(** [http.ResponseWriter]: the header map, the status line and headers
    already sent (if any) and the bodies written so far, oldest first. *)
Record ResponseWriter : Type := {
  respHeader : Values;
  respSent : option (nat * Values);
  respBody : list body
}.

Definition newResponseWriter : ResponseWriter :=
  {| respHeader := ∅; respSent := None; respBody := [] |}.

(** The status code the client receives. *)
Definition respStatus (w : ResponseWriter) : option nat := fst <$> respSent w.

(** [w.WriteHeader(code)]: only the first call sends the status line
    (with the headers as they are then); later calls are ignored. *)
Definition WriteHeader (code : nat) (w : ResponseWriter) : ResponseWriter :=
  match respSent w with
  | Some _ => w
  | None => {| respHeader := respHeader w;
               respSent := Some (code, respHeader w);
               respBody := respBody w |}
  end.

(** [w.Write(b)]: sends [200] first if no status was sent yet. *)
Definition Write (b : body) (w : ResponseWriter) : ResponseWriter :=
  let w := WriteHeader StatusOK w in
  {| respHeader := respHeader w; respSent := respSent w;
     respBody := respBody w ++ [b] |}.

(** Modelled from the spec: [httputil.ErrResponse(w, status, errorMsg...)]
    is not part of this file.  The spec gives every non-2xx response the
    HTTP status code and one JSON error object with the message. *)
Definition ErrResponse (status : nat) (errorMsg : list string) (w : ResponseWriter)
  : ResponseWriter :=
  Write (ErrorBody status errorMsg) (WriteHeader status w).

(** ** The handler monad

    A handler threads the response writer, the log and the calls made
    to the external service. *)

Inductive service_call : Type :=
| CallBindAddress (skyAddr : string)
| CallGetDepositStatuses (skyAddr : string).

Record hstate : Type := {
  resp : ResponseWriter;
  hlog : list log_entry;
  hcalls : list service_call
}.

Definition hstate0 : hstate :=
  {| resp := newResponseWriter; hlog := []; hcalls := [] |}.

Definition M (A : Type) : Type := hstate -> A * hstate.

Definition ret {A : Type} (a : A) : M A := fun s => (a, s).

Definition bind {A B : Type} (m : M A) (k : A -> M B) : M B :=
  fun s => let '(a, s') := m s in k a s'.

Notation "'let*' x ':=' m 'in' k" := (bind m (fun x => k))
  (at level 10, x name, m at level 100, k at level 200).
Notation "'exec' m 'in' k" := (bind m (fun _ => k))
  (at level 10, m at level 100, k at level 200).

Definition on_resp (f : ResponseWriter -> ResponseWriter) : M unit :=
  fun s => (tt, {| resp := f (resp s); hlog := hlog s; hcalls := hcalls s |}).

Definition write_log (e : log_entry) : M unit :=
  fun s => (tt, {| resp := resp s; hlog := hlog s ++ [e]; hcalls := hcalls s |}).

Definition record_call (c : service_call) : M unit :=
  fun s => (tt, {| resp := resp s; hlog := hlog s; hcalls := hcalls s ++ [c] |}).

(** [w.Header().Set(key, value)]. *)
Definition set_header (key value : string) : M unit :=
  on_resp (fun w => {| respHeader := Values_Set key value (respHeader w);
                       respSent := respSent w; respBody := respBody w |}).

(** [errorResponse]: one log entry with the status, then
    [httputil.ErrResponse(w, code)] without a message. *)
Definition errorResponse (code : nat) (err : error) : M unit :=
  exec write_log {| log_level_of := InfoLevel; log_status := Some code;
                    log_error := err; log_msg := "" |} in
  on_resp (ErrResponse code []).

(** [validMethod]. *)
Definition validMethod (r : Request) (allowed : list string) : M bool :=
  if existsb (String.eqb (Method r)) allowed then ret true
  else
    exec set_header "Allow" (strings_Join allowed ", ") in
    exec errorResponse StatusMethodNotAllowed (errors_New "Invalid request method") in
    ret false.

(** [handleServiceResponseError]. *)
Definition handleServiceResponseError (err : error) : M unit :=
  if is_err err then errorResponse StatusInternalServerError err else ret tt.

(** ** The API handlers *)

(** [BindResponse], with its [json] tags. *)
Record BindResponse : Type := {
  DepositAddress : string;
  CoinType : string
}.

(** A string field tagged [omitempty]: left out when it is [""]. *)
Definition omitempty_string (name value : string) : list (string * json) :=
  if str_empty value then [] else [(name, JString value)].

(** [json.Marshal] of a [BindResponse]: both fields are [omitempty]. *)
Definition marshal_BindResponse (b : BindResponse) : json :=
  JObject (omitempty_string "deposit_address" (DepositAddress b)
           ++ omitempty_string "coin_type" (CoinType b)).

(** Modelled from the spec: [httputil.JSONResponse(w, data)] is not part
    of this file.  The spec has a handler respond with its result "as
    JSON": the encoding of [data] is written as the body, and the
    error returned is nil. *)
Definition JSONResponse (doc : json) : M error :=
  exec on_resp (Write (JSONBody doc)) in ret None.

(** [readyToStart]; [now] is what [time.Now()] returns and [formatTime]
    what [%v] prints for a [time.Time]. *)
Definition readyToStart (formatTime : Time -> string) (now startAt : Time) : M bool :=
  if After (UTC now) (UTC startAt) then ret true
  else
    let msg := "Event starts at " +:+ formatTime startAt in
    exec on_resp (ErrResponse StatusForbidden [msg]) in
    exec write_log {| log_level_of := InfoLevel; log_status := Some StatusForbidden;
                      log_error := None; log_msg := msg |} in
    ret false.

Section Handlers.

(** [scanner.CoinTypeBTC], a string constant of another package. *)
Variable CoinTypeBTC : string.

(** [exchange.DepositStatus] and its JSON encoding. *)
Variable DepositStatus : Type.
Variable marshal_DepositStatus : DepositStatus -> json.

(** [cipher.DecodeBase58Address], reduced to the error it returns. *)
Variable DecodeBase58Address : string -> error.

(** [%v] of a [time.Time]. *)
Variable formatTime : Time -> string.

(** The methods of [hs.service] that the handlers call. *)
Record service : Type := {
  BindAddress : string -> string * error;
  GetDepositStatuses : string -> list DepositStatus * error
}.

Variable svc : service.

(** [StatusResponse]. *)
Record StatusResponse : Type := {
  Statuses : list DepositStatus
}.

(** [json.Marshal] of a [StatusResponse]: [Statuses] is tagged
    [omitempty], so a nil or empty slice leaves the field out. *)
Definition marshal_StatusResponse (s : StatusResponse) : json :=
  JObject (match Statuses s with
           | [] => []
           | _ :: _ => [("statuses", JArray (map marshal_DepositStatus (Statuses s)))]
           end).

(** [verifySkycoinAddress]. *)
Definition verifySkycoinAddress (skyAddr : string) : M bool :=
  match DecodeBase58Address skyAddr with
  | Some err =>
      let msg := "Invalid skycoin address: " +:+ err in
      exec on_resp (ErrResponse StatusBadRequest [msg]) in
      exec write_log {| log_level_of := InfoLevel; log_status := Some StatusBadRequest;
                        log_error := Some err; log_msg := "Invalid skycoin address" |} in
      ret false
  | None => ret true
  end.

(** The [switch bindReq.CoinType] of [BindHandler]: neither error
    case returns from the handler. *)
Definition checkCoinType (coinType : string) : M unit :=
  if String.eqb coinType CoinTypeBTC then ret tt
  else if String.eqb coinType "" then
    errorResponse StatusBadRequest (errors_New "Missing coin_type")
  else
    errorResponse StatusBadRequest (errors_New "Invalid coin_type").

(** [BindHandler(hs)] serving [r] at time [now]. *)
Definition BindHandler (hs : httpServer) (now : Time) (r : Request) : M (outcome unit) :=
  exec set_header "Accept" "application/json" in
  let* ok := validMethod r [MethodPost] in
  if negb ok then ret (Returned tt) else
  if negb (String.eqb (Values_Get "Content-Type" (ReqHeader r)) "application/json") then
    exec errorResponse StatusUnsupportedMediaType (errors_New "Invalid content type") in
    ret (Returned tt)
  else
  match Body r with
  | DecodeError err =>
      exec errorResponse StatusBadRequest
             (Some ("Invalid json request body: " +:+ err)) in
      ret (Returned tt)
  | DecodeNull => ret Panicked
  | Decoded bindReq =>
      if str_empty (SkyAddr bindReq) then
        exec errorResponse StatusBadRequest (errors_New "Missing skyaddr") in
        ret (Returned tt)
      else
      exec checkCoinType (ReqCoinType bindReq) in
      exec write_log (log_Info "") in
      let* ok := verifySkycoinAddress (SkyAddr bindReq) in
      if negb ok then ret (Returned tt) else
      let* ok := readyToStart formatTime now (StartAt (Config hs)) in
      if negb ok then ret (Returned tt) else
      exec write_log (log_Info "Calling service.BindAddress") in
      exec record_call (CallBindAddress (SkyAddr bindReq)) in
      let '(btcAddr, err) := BindAddress svc (SkyAddr bindReq) in
      match err with
      | Some e =>
          exec write_log (log_Error err "service.BindAddress failed") in
          exec on_resp (ErrResponse StatusBadRequest [e]) in
          ret (Returned tt)
      | None =>
          exec write_log (log_Info "Bound sky and btc addresses") in
          let* err := JSONResponse (marshal_BindResponse
                                      {| DepositAddress := btcAddr;
                                         CoinType := CoinTypeBTC |}) in
          exec (if is_err err then write_log (log_Error err "") else ret tt) in
          ret (Returned tt)
      end
  end.

(** [StatusHandler(hs)] serving [r] at time [now]. *)
Definition StatusHandler (hs : httpServer) (now : Time) (r : Request) : M (outcome unit) :=
  let* ok := validMethod r [MethodGet] in
  if negb ok then ret (Returned tt) else
  let skyAddr := Values_Get "skyaddr" (Query r) in
  if str_empty skyAddr then
    exec errorResponse StatusBadRequest (errors_New "Missing skyaddr") in
    ret (Returned tt)
  else
  exec write_log (log_Info "") in
  let* ok := verifySkycoinAddress skyAddr in
  if negb ok then ret (Returned tt) else
  let* ok := readyToStart formatTime now (StartAt (Config hs)) in
  if negb ok then ret (Returned tt) else
  exec write_log (log_Info "Sending StatusRequest to teller") in
  exec record_call (CallGetDepositStatuses skyAddr) in
  let '(depositStatuses, err) := GetDepositStatuses svc skyAddr in
  match err with
  | Some e =>
      exec write_log (log_Error err "service.GetDepositStatuses failed") in
      exec on_resp (ErrResponse StatusBadRequest [e]) in
      ret (Returned tt)
  | None =>
      exec write_log (log_Info "Got depositStatuses") in
      let* err := JSONResponse (marshal_StatusResponse
                                  {| Statuses := depositStatuses |}) in
      exec (if is_err err then write_log (log_Error err "") else ret tt) in
      ret (Returned tt)
  end.

End Handlers.

Arguments BindAddress {DepositStatus} _ _.
Arguments GetDepositStatuses {DepositStatus} _ _.
Arguments Statuses {DepositStatus} _.

(** The server as a concurrent [Shutdown] leaves it right after its
    first statement, and after it has returned. *)
Definition Shutdown_closing (hs : httpServer) : httpServer :=
  match Shutdown_close hs with
  | (_, Returned hs') => hs'
  | (_, Panicked) => hs
  end.

Definition Shutdown_done (srvShutdown : Server -> error) (hs : httpServer) : httpServer :=
  match Shutdown srvShutdown hs with
  | (_, Returned hs') => hs'
  | (_, Panicked) => hs
  end.

(** ** Sample inputs

    Concrete configurations, collaborators and requests on which the
    properties below are exercised. *)

Definition sample_throttle : Throttle := {| Max := 60; ThrottleDuration := Second * 60 |}.

Definition sample_config (http https auto cert key : string) : HTTPConfig :=
  {| HTTPAddr := http; HTTPSAddr := https; StaticDir := "./web/build";
     StartAt := 1000; AutoTLSHost := auto; TLSCert := cert; TLSKey := key;
     ConfigThrottle := sample_throttle |}.

Definition cfg_http_only : HTTPConfig := sample_config "127.0.0.1:7071" "" "" "" "".
Definition cfg_no_address : HTTPConfig := sample_config "" "" "" "" "".
Definition cfg_https_no_tls : HTTPConfig := sample_config "" "0.0.0.0:443" "" "" "".
Definition cfg_cert_only : HTTPConfig :=
  sample_config "127.0.0.1:7071" "0.0.0.0:443" "" "cert.pem" "".
Definition cfg_auto_and_pair : HTTPConfig :=
  sample_config "" "0.0.0.0:443" "teller.example.com" "cert.pem" "key.pem".
Definition cfg_tls_no_https : HTTPConfig :=
  sample_config "127.0.0.1:7071" "" "teller.example.com" "" "".
Definition cfg_auto_tls : HTTPConfig :=
  sample_config "127.0.0.1:7071" "0.0.0.0:443" "teller.example.com" "" "".

Definition sample_skyAddr : string := "2GgFvqoyk9RjwVzj8tqfcXVXB4orBwoc9qv".
Definition sample_btcAddr : string := "1PdstPKKXGY8cMXqqLtKyCLPVbqHbTRkPm".

(** An address validator that accepts [sample_skyAddr] only. *)
Definition sample_DecodeBase58Address (addr : string) : error :=
  if String.eqb addr sample_skyAddr then None else Some "Invalid base58 character".

Definition sample_formatTime (t : Time) : string :=
  "1970-01-01 00:00:00.000001 +0000 UTC".

(** A service that binds every address to [sample_btcAddr] and knows of
    no deposit. *)
Definition sample_service : service string :=
  {| BindAddress := fun _ => (sample_btcAddr, None);
     GetDepositStatuses := fun _ => ([], None) |}.

Definition sample_hs : httpServer := newHTTPServer cfg_http_only.

(** [POST /api/bind] with a JSON body carrying [sample_skyAddr] and the
    given [coin_type]. *)
Definition sample_bind_request (method contentType coinType : string) : Request :=
  {| Method := method;
     ReqHeader := {[ "Content-Type" := [contentType] ]};
     Query := ∅;
     Body := Decoded {| SkyAddr := sample_skyAddr; ReqCoinType := coinType |} |}.

(** [GET /api/status?skyaddr=<sample_skyAddr>]. *)
Definition sample_status_request : Request :=
  {| Method := MethodGet;
     ReqHeader := ∅;
     Query := {[ "skyaddr" := [sample_skyAddr] ]};
     Body := DecodeError "EOF" |}.

Definition sample_Bind (now : Time) (r : Request) : hstate :=
  snd (BindHandler "BTC" string sample_DecodeBase58Address sample_formatTime
         sample_service sample_hs now r hstate0).

Definition sample_Status (now : Time) (r : Request) : hstate :=
  snd (StatusHandler string JString sample_DecodeBase58Address sample_formatTime
         sample_service sample_hs now r hstate0).

(** A [Run] with the HTTP listener only, whose [ListenAndServe] returns
    because a concurrent [Shutdown] closed the listener, and which looks
    at the error only once that [Shutdown] has returned. *)
Definition world_Shutdown_returned : run_world :=
  {| ListenAndServe := fun _ => Some "http: Server closed";
     ListenAndServeTLS := fun _ _ _ => Some "http: Server closed";
     dualSelect := RecvQuit;
     meanwhile := Shutdown_done (fun _ => None) |}.

(** The same [Run], looking at the error while that [Shutdown] is still
    draining the listeners. *)
Definition world_Shutdown_draining : run_world :=
  {| ListenAndServe := fun _ => Some "http: Server closed";
     ListenAndServeTLS := fun _ _ _ => Some "http: Server closed";
     dualSelect := RecvQuit;
     meanwhile := Shutdown_closing |}.

(** A [Run] whose listener fails to bind, with no [Shutdown] around. *)
Definition world_bind_failure : run_world :=
  {| ListenAndServe := fun _ => Some "listen tcp 127.0.0.1:7071: bind: address already in use";
     ListenAndServeTLS := fun _ _ _ => Some "listen tcp 0.0.0.0:443: bind: address already in use";
     dualSelect := RecvErr "listen tcp 0.0.0.0:443: bind: address already in use";
     meanwhile := fun hs => hs |}.

(** More sample inputs: configurations that pass [Validate], services
    that fail or know deposits, and requests that are turned away. *)

Definition cfg_cert_pair : HTTPConfig :=
  sample_config "" "0.0.0.0:443" "" "cert.pem" "key.pem".
Definition cfg_both_listeners : HTTPConfig :=
  sample_config "127.0.0.1:7071" "0.0.0.0:443" "" "cert.pem" "key.pem".

(** A service whose two methods fail. *)
Definition sample_failing_service : service string :=
  {| BindAddress := fun _ => ("", Some "max bound addresses reached");
     GetDepositStatuses := fun _ => ([], Some "deposit store unavailable") |}.

(** A service that knows two deposits of every address. *)
Definition sample_deposit_service : service string :=
  {| BindAddress := fun _ => (sample_btcAddr, None);
     GetDepositStatuses := fun _ => (["waiting_send"; "done"], None) |}.

(** [POST /api/bind] with the given decoded body. *)
Definition sample_bind_body (b : decode_result) : Request :=
  {| Method := MethodPost;
     ReqHeader := {[ "Content-Type" := ["application/json"] ]};
     Query := ∅;
     Body := b |}.

(** [GET /api/status?skyaddr=<addr>]. *)
Definition sample_status_for (addr : string) : Request :=
  {| Method := MethodGet;
     ReqHeader := ∅;
     Query := {[ "skyaddr" := [addr] ]};
     Body := DecodeError "EOF" |}.

(** Number of times the gate is closed in a run of events. *)
Fixpoint count_close (evs : list event) : nat :=
  match evs with
  | [] => 0%nat
  | EvCloseQuit :: rest => S (count_close rest)
  | _ :: rest => count_close rest
  end.

(** The listeners drained in a run of events, in order. *)
Fixpoint drained (evs : list event) : list (string * Server * Duration) :=
  match evs with
  | [] => []
  | EvServerShutdown proto srv t :: rest => (proto, srv, t) :: drained rest
  | _ :: rest => drained rest
  end.

(** The two handlers on the sample collaborators, with a choice of
    service, from a response not yet started. *)
Definition sample_Bind_run (svc : service string) (now : Time) (r : Request)
  : outcome unit * hstate :=
  BindHandler "BTC" string sample_DecodeBase58Address sample_formatTime
    svc sample_hs now r hstate0.

Definition sample_Status_run (svc : service string) (now : Time) (r : Request)
  : outcome unit * hstate :=
  StatusHandler string JString sample_DecodeBase58Address sample_formatTime
    svc sample_hs now r hstate0.

(** The configurations [Validate] is meant to let through: an address
    to listen on; with HTTPS exactly one source of certificates; without
    HTTPS no TLS option. *)
Definition well_formed (c : HTTPConfig) : Prop :=
  (HTTPAddr c <> "" \/ HTTPSAddr c <> "")
  /\ (HTTPSAddr c <> "" ->
       (AutoTLSHost c <> "" /\ TLSCert c = "" /\ TLSKey c = "")
       \/ (AutoTLSHost c = "" /\ TLSCert c <> "" /\ TLSKey c <> ""))
  /\ (HTTPSAddr c = "" -> AutoTLSHost c = "" /\ TLSCert c = "" /\ TLSKey c = "").

(** * Properties *)

(** ** Strings *)

Lemma str_empty_true (s : string) : str_empty s = true <-> s = "".
Proof. unfold str_empty. apply String.eqb_eq. Qed.

Lemma str_empty_false (s : string) : str_empty s = false <-> s <> "".
Proof. unfold str_empty. apply String.eqb_neq. Qed.

Ltac to_bool :=
  repeat match goal with
         | H : _ = "" |- _ => apply str_empty_true in H
         | H : _ <> "" |- _ => apply str_empty_false in H
         | H : _ /\ _ |- _ => destruct H
         end.

(** ** The configuration validator *)

(** The message of each rejection, by the first check that fires. *)
Lemma Validate_no_address (c : HTTPConfig) :
  HTTPAddr c = "" -> HTTPSAddr c = "" ->
  Validate c = Some "at least one of -http-service-addr, -https-service-addr must be set".
Proof. intros; to_bool. unfold Validate. rewrite H, H0. reflexivity. Qed.

Lemma Validate_nil_inv (c : HTTPConfig) :
  Validate c = None ->
  (HTTPAddr c <> "" \/ HTTPSAddr c <> "")
  /\ (HTTPSAddr c <> "" -> AutoTLSHost c <> "" \/ (TLSCert c <> "" /\ TLSKey c <> ""))
  /\ (TLSCert c = "" <-> TLSKey c = "")
  /\ (AutoTLSHost c <> "" -> TLSCert c = "" /\ TLSKey c = "")
  /\ (HTTPSAddr c = "" -> AutoTLSHost c = "" /\ TLSCert c = "" /\ TLSKey c = "").
Proof.
  unfold Validate, errors_New.
  rewrite <- !str_empty_true.
  destruct (str_empty (HTTPAddr c)), (str_empty (HTTPSAddr c)),
    (str_empty (AutoTLSHost c)), (str_empty (TLSCert c)), (str_empty (TLSKey c));
    simpl; intros E; try discriminate E; intuition congruence.
Qed.

(** C4: [Validate] returns an error when both listen addresses are
    empty; when [HTTPSAddr] is set with neither [AutoTLSHost] nor a
    full cert/key pair; when exactly one of [TLSCert] / [TLSKey] is
    set; when [AutoTLSHost] and a cert/key pair are both set; and when
    a TLS option is set while [HTTPSAddr] is empty.  A configuration
    with only [HTTPAddr] set and every TLS field empty returns nil. *)
Theorem Validate_spec (c : HTTPConfig) :
  (HTTPAddr c = "" /\ HTTPSAddr c = "" -> is_err (Validate c) = true)
  /\ (HTTPSAddr c <> "" /\ AutoTLSHost c = "" /\ (TLSCert c = "" \/ TLSKey c = "") ->
      is_err (Validate c) = true)
  /\ ((TLSCert c = "" /\ TLSKey c <> "") \/ (TLSCert c <> "" /\ TLSKey c = "") ->
      is_err (Validate c) = true)
  /\ (AutoTLSHost c <> "" /\ TLSCert c <> "" /\ TLSKey c <> "" ->
      is_err (Validate c) = true)
  /\ (HTTPSAddr c = "" /\ (AutoTLSHost c <> "" \/ TLSCert c <> "" \/ TLSKey c <> "") ->
      is_err (Validate c) = true)
  /\ (HTTPAddr c <> "" /\ HTTPSAddr c = "" /\ AutoTLSHost c = ""
      /\ TLSCert c = "" /\ TLSKey c = "" ->
      Validate c = None).
Proof.
  assert (Hinv := Validate_nil_inv c).
  repeat split; intros H.
  1-5: destruct (Validate c) eqn:E; [reflexivity | exfalso];
       specialize (Hinv eq_refl); intuition congruence.
  to_bool. unfold Validate. rewrite H, H0, H1, H2, H3. reflexivity.
Qed.

(** ** The security middleware built by [Run] *)

(** C8: when [AutoTLSHost] is set, [Run] hands the security middleware
    exactly that host as its only allowed host and as its SSL host;
    otherwise the allowed hosts are empty (any host) and the SSL host
    is [HTTPSAddr], and when that is empty too the SSL redirect is
    off.  Every listener [Run] creates serves through this middleware. *)
Theorem Run_secureMiddleware_hosts (hs : httpServer) :
  let cfg := Config hs in
  let sm := Run_secureMiddleware cfg in
  (AutoTLSHost cfg <> "" ->
     AllowedHosts sm = [AutoTLSHost cfg] /\ SSLHost sm = AutoTLSHost cfg)
  /\ (AutoTLSHost cfg = "" ->
     AllowedHosts sm = [] /\ SSLHost sm = HTTPSAddr cfg
     /\ (HTTPSAddr cfg = "" -> SSLRedirect sm = false)
     /\ (HTTPSAddr cfg <> "" -> SSLRedirect sm = true))
  /\ (HTTPAddr cfg <> "" ->
      handlerSecure <$> (ServerHandler <$> httpListener (Run_setup hs)) = Some sm)
  /\ (HTTPSAddr cfg <> "" ->
      handlerSecure <$> (ServerHandler <$> httpsListener (Run_setup hs)) = Some sm).
Proof.
  intros cfg sm. subst sm.
  split; [|split; [|split]]; intros H; to_bool.
  - unfold Run_secureMiddleware, Run_hosts. rewrite H. split; reflexivity.
  - unfold Run_secureMiddleware, Run_hosts, configureSecureMiddleware.
    rewrite H. simpl.
    repeat split; intros H0; to_bool; rewrite H0; reflexivity.
  - unfold Run_setup. fold cfg. rewrite H. simpl.
    destruct (str_empty (HTTPSAddr cfg)); reflexivity.
  - unfold Run_setup. fold cfg. rewrite H. simpl. unfold Run_httpsListener.
    destruct (str_empty (AutoTLSHost cfg)); reflexivity.
Qed.

(** ** The listener life cycle *)

Lemma set_quit_same (hs : httpServer) : set_quit (quit hs) hs = hs.
Proof. destruct hs; reflexivity. Qed.

Lemma quit_set_quit (q : chan) (hs : httpServer) : quit (set_quit q hs) = q.
Proof. reflexivity. Qed.

Lemma quit_Run_setup (hs : httpServer) : quit (Run_setup hs) = ChanOpen.
Proof.
  unfold Run_setup.
  destruct (negb (str_empty (HTTPAddr (Config hs)))),
    (negb (str_empty (HTTPSAddr (Config hs)))); reflexivity.
Qed.

(** The drain calls never close the gate. *)
Lemma shutdown_no_close (srvShutdown : Server -> error) (proto : string) (ln : option Server) :
  ~ In EvCloseQuit (shutdown srvShutdown proto ln).
Proof.
  destruct ln as [srv|]; simpl; [|tauto].
  destruct (srvShutdown srv); simpl; intuition discriminate.
Qed.

Lemma Shutdown_drain_no_close (srvShutdown : Server -> error) (hs : httpServer) :
  ~ In EvCloseQuit (Shutdown_drain srvShutdown hs).
Proof.
  unfold Shutdown_drain. rewrite in_app_iff.
  intros [H|H]; eapply shutdown_no_close; exact H.
Qed.

(** [Shutdown] panics only on a gate that is already closed. *)
Lemma Shutdown_returns (srvShutdown : Server -> error) (hs : httpServer) :
  quit hs <> ChanClosed ->
  exists evs hs', Shutdown srvShutdown hs = (evs, Returned hs') /\ quit hs' = ChanNil.
Proof.
  intros Hq. unfold Shutdown, Shutdown_close.
  destruct (quit hs); [eexists; eexists; split; reflexivity ..|congruence].
Qed.

(** C9: [Shutdown] on a server whose [quit] is nil and that has no
    listener closes nothing, changes nothing and returns; and whenever
    a [Shutdown] returns, [quit] is nil afterwards, so that a second
    [Shutdown] right after it closes nothing and returns as well. *)
Theorem Shutdown_without_Run (srvShutdown : Server -> error) (hs : httpServer) :
  (quit hs = ChanNil -> httpListener hs = None -> httpsListener hs = None ->
     Shutdown srvShutdown hs = ([], Returned hs))
  /\ (forall evs hs',
        Shutdown srvShutdown hs = (evs, Returned hs') ->
        quit hs' = ChanNil
        /\ exists evs2 hs'',
             Shutdown srvShutdown hs' = (evs2, Returned hs'')
             /\ ~ In EvCloseQuit evs2
             /\ quit hs'' = ChanNil).
Proof.
  split.
  - intros Hq Hh Hs. unfold Shutdown, Shutdown_close, Shutdown_drain.
    rewrite Hq, Hh, Hs. simpl. rewrite <- Hq at 1. rewrite set_quit_same. reflexivity.
  - intros evs hs' H.
    assert (Hq : quit hs' = ChanNil).
    { unfold Shutdown, Shutdown_close in H.
      destruct (quit hs); inversion H; reflexivity. }
    split; [exact Hq|].
    exists (Shutdown_drain srvShutdown hs'), (set_quit ChanNil hs').
    split; [|split].
    + unfold Shutdown, Shutdown_close. rewrite Hq. reflexivity.
    + apply Shutdown_drain_no_close.
    + reflexivity.
Qed.

(** What [handleListenErr] returns for a listener error, by the state
    of [hs.quit] when its [select] runs. *)
Lemma handleListenErr_gate (hs : httpServer) (err : string) :
  snd (handleListenErr hs (Some err))
  = match quit hs with
    | ChanClosed => None
    | ChanOpen | ChanNil => Some ("http serve failed: " +:+ err)
    end.
Proof. unfold handleListenErr. destruct (quit hs); reflexivity. Qed.

Lemma handleListenErr_nil (hs : httpServer) : handleListenErr hs None = ([], None).
Proof. reflexivity. Qed.

Lemma Run_result (w : run_world) (hs : httpServer) (ferr : error) :
  Run_listen w (Run_setup hs) = Returned ferr ->
  snd (Run w hs) = Returned (snd (handleListenErr (meanwhile w (Run_setup hs)) ferr)).
Proof.
  intros H. unfold Run. rewrite H.
  destruct (handleListenErr (meanwhile w (Run_setup hs)) ferr); reflexivity.
Qed.

(** A listener error seen while [hs.quit] still holds the closed gate
    is suppressed; one seen while [hs.quit] is open or nil is returned,
    wrapped. *)
Lemma Run_listener_error (w : run_world) (hs : httpServer) (err : string) :
  Run_listen w (Run_setup hs) = Returned (Some err) ->
  (quit (meanwhile w (Run_setup hs)) = ChanClosed -> snd (Run w hs) = Returned None)
  /\ (quit (meanwhile w (Run_setup hs)) <> ChanClosed ->
      snd (Run w hs) = Returned (Some ("http serve failed: " +:+ err))).
Proof.
  intros H. rewrite (Run_result _ _ _ H), handleListenErr_gate.
  destruct (quit (meanwhile w (Run_setup hs))); split; intros Hq;
    first [reflexivity | discriminate Hq | exfalso; apply Hq; reflexivity].
Qed.

(** While [Shutdown] is between closing the gate and resetting
    [hs.quit], a listener error makes [Run] return nil. *)
Lemma Run_during_Shutdown (w : run_world) (hs : httpServer) (err : string) :
  Run_listen w (Run_setup hs) = Returned (Some err) ->
  meanwhile w (Run_setup hs) = Shutdown_closing (Run_setup hs) ->
  snd (Run w hs) = Returned None.
Proof.
  intros H Hm. apply (Run_listener_error w hs err H). rewrite Hm.
  unfold Shutdown_closing, Shutdown_close. rewrite quit_Run_setup. reflexivity.
Qed.

(** Once [Shutdown] has returned, [hs.quit] is nil again and the
    [select] of [handleListenErr] falls to [default]: the listener
    error caused by the shutdown is returned. *)
Lemma Run_after_Shutdown (srvShutdown : Server -> error) (w : run_world)
      (hs : httpServer) (err : string) :
  Run_listen w (Run_setup hs) = Returned (Some err) ->
  meanwhile w (Run_setup hs) = Shutdown_done srvShutdown (Run_setup hs) ->
  In EvCloseQuit (fst (Shutdown srvShutdown (Run_setup hs)))
  /\ snd (Run w hs) = Returned (Some ("http serve failed: " +:+ err)).
Proof.
  intros H Hm.
  assert (Hs : Shutdown srvShutdown (Run_setup hs)
               = (EvCloseQuit :: Shutdown_drain srvShutdown (set_quit ChanClosed (Run_setup hs)),
                  Returned (set_quit ChanNil (set_quit ChanClosed (Run_setup hs))))).
  { unfold Shutdown, Shutdown_close. rewrite quit_Run_setup. reflexivity. }
  split.
  - rewrite Hs. left. reflexivity.
  - apply (Run_listener_error w hs err H). rewrite Hm.
    unfold Shutdown_done. rewrite Hs. simpl. discriminate.
Qed.

(** ** The API handlers *)

Lemma Values_Get_Set (key value : string) (h : Values) :
  Values_Get key (Values_Set key value h) = value.
Proof. unfold Values_Get, Values_Set. rewrite lookup_insert_eq. reflexivity. Qed.

Ltac unfold_handler :=
  unfold BindHandler, StatusHandler, checkCoinType, validMethod, verifySkycoinAddress,
    readyToStart, errorResponse, JSONResponse, handleServiceResponseError,
    set_header, record_call, write_log, on_resp, bind, ret, ErrResponse, Write,
    WriteHeader, respStatus.

Ltac start_from s0 H :=
  destruct s0 as [[h0 sent0 body0] log0 calls0]; simpl in H; subst.

Section HandlerProperties.

Variable CoinTypeBTC : string.
Variable DepositStatus : Type.
Variable marshal_DepositStatus : DepositStatus -> json.
Variable DecodeBase58Address : string -> error.
Variable formatTime : Time -> string.
Variable svc : service DepositStatus.
Variable hs : httpServer.
Variable now : Time.

Local Abbreviation Bind :=
  (BindHandler CoinTypeBTC DepositStatus DecodeBase58Address formatTime svc hs now).
Local Abbreviation Status :=
  (StatusHandler DepositStatus marshal_DepositStatus DecodeBase58Address
     formatTime svc hs now).

(** C6: a Bind request whose method is not POST is answered 405 with
    the header [Allow: POST] sent; a POST whose [Content-Type] is not
    [application/json] is answered 415. *)
Theorem BindHandler_method_and_content_type (r : Request) (s0 : hstate) :
  respSent (resp s0) = None ->
  let s := snd (Bind r s0) in
  (Method r <> MethodPost ->
     respStatus (resp s) = Some StatusMethodNotAllowed
     /\ (exists sent, respSent (resp s) = Some (StatusMethodNotAllowed, sent)
                      /\ sent !! "Allow" = Some ["POST"])
     /\ Values_Get "Allow" (respHeader (resp s)) = "POST")
  /\ (Method r = MethodPost ->
      Values_Get "Content-Type" (ReqHeader r) <> "application/json" ->
      respStatus (resp s) = Some StatusUnsupportedMediaType).
Proof.
  intros H0 s. subst s. start_from s0 H0. split.
  - intros Hm. apply String.eqb_neq in Hm.
    unfold_handler. simpl. rewrite Hm. simpl.
    split; [reflexivity|]. split.
    + eexists. split; [reflexivity|]. apply lookup_insert_eq.
    + apply Values_Get_Set.
  - intros Hm Hc. apply String.eqb_neq in Hc.
    unfold_handler. simpl. rewrite Hm. simpl. rewrite Hc. reflexivity.
Qed.

(** C5: a Bind or Status request that passed the method, body and
    address checks while the current time is not after [StartAt] is
    answered 403 with the message "Event starts at ...", as its only
    body, and the external service is not called. *)
Theorem handlers_before_start (r : Request) (s0 : hstate) :
  respSent (resp s0) = None ->
  (now <= StartAt (Config hs))%Z ->
  let msg := "Event starts at " +:+ formatTime (StartAt (Config hs)) in
  (forall req,
      Method r = MethodPost ->
      Values_Get "Content-Type" (ReqHeader r) = "application/json" ->
      Body r = Decoded req ->
      SkyAddr req <> "" ->
      ReqCoinType req = CoinTypeBTC ->
      DecodeBase58Address (SkyAddr req) = None ->
      let s := snd (Bind r s0) in
      respStatus (resp s) = Some StatusForbidden
      /\ respBody (resp s) = respBody (resp s0) ++ [ErrorBody StatusForbidden [msg]]
      /\ hcalls s = hcalls s0)
  /\ (Method r = MethodGet ->
      Values_Get "skyaddr" (Query r) <> "" ->
      DecodeBase58Address (Values_Get "skyaddr" (Query r)) = None ->
      let s := snd (Status r s0) in
      respStatus (resp s) = Some StatusForbidden
      /\ respBody (resp s) = respBody (resp s0) ++ [ErrorBody StatusForbidden [msg]]
      /\ hcalls s = hcalls s0).
Proof.
  intros H0 Hnow msg. subst msg.
  assert (Ha : After (UTC now) (UTC (StartAt (Config hs))) = false).
  { unfold After, UTC. apply Z.ltb_ge. exact Hnow. }
  start_from s0 H0. split.
  - intros req Hm Hc Hb Hs Hk Hd s. subst s. to_bool.
    unfold_handler. simpl. rewrite Hm, Hc, Hb. simpl.
    rewrite Hs, Hk, String.eqb_refl. simpl. rewrite Hd, Ha. simpl. auto.
  - intros Hm Hs Hd s. subst s. to_bool.
    unfold_handler. simpl. rewrite Hm. simpl. rewrite Hs. simpl.
    rewrite Hd, Ha. simpl. auto.
Qed.

Lemma marshal_BindResponse_coin_type (addr coin : string) :
  coin <> "" ->
  json_field "coin_type"
    (marshal_BindResponse {| DepositAddress := addr; CoinType := coin |})
  = Some (JString coin).
Proof.
  intros Hc. to_bool. unfold marshal_BindResponse, omitempty_string. simpl.
  rewrite Hc. destruct (str_empty addr); reflexivity.
Qed.

(** C10: whatever the request, every JSON document [BindHandler]
    writes is the encoding of a [BindResponse] whose [CoinType] is
    the constant [CoinTypeBTC] (and whose address is the one the
    service returned); its [coin_type] member is that constant, not
    the [coin_type] of the request. *)
Theorem BindHandler_response_coin_type (r : Request) (s0 : hstate) (doc : json) :
  respBody (resp s0) = [] ->
  In (JSONBody doc) (respBody (resp (snd (Bind r s0)))) ->
  exists req,
    Body r = Decoded req
    /\ doc = marshal_BindResponse
               {| DepositAddress := fst (BindAddress svc (SkyAddr req));
                  CoinType := CoinTypeBTC |}
    /\ (CoinTypeBTC <> "" -> json_field "coin_type" doc = Some (JString CoinTypeBTC)).
Proof.
  intros H0. start_from s0 H0. unfold_handler. simpl.
  destruct (Method r =? MethodPost)%string; simpl;
    [|destruct sent0; simpl; intuition discriminate].
  destruct (Values_Get "Content-Type" (ReqHeader r) =? "application/json")%string; simpl;
    [|destruct sent0; simpl; intuition discriminate].
  destruct (Body r) as [err| |req]; simpl;
    [destruct sent0; simpl; intuition discriminate | tauto |].
  destruct (str_empty (SkyAddr req)); simpl;
    [destruct sent0; simpl; intuition discriminate|].
  intros Hin. exists req. split; [reflexivity|].
  assert (Hdoc : doc = marshal_BindResponse
                         {| DepositAddress := fst (BindAddress svc (SkyAddr req));
                            CoinType := CoinTypeBTC |}).
  { revert Hin.
    destruct (ReqCoinType req =? CoinTypeBTC)%string; simpl;
      [|destruct (ReqCoinType req =? "")%string; simpl];
      destruct (DecodeBase58Address (SkyAddr req)); simpl;
      destruct (After (UTC now) (UTC (StartAt (Config hs)))); simpl;
      destruct (BindAddress svc (SkyAddr req)) as [btcAddr [e|]]; simpl;
      destruct sent0; simpl; intuition congruence. }
  split; [exact Hdoc|].
  intros Hc. rewrite Hdoc. apply marshal_BindResponse_coin_type. exact Hc.
Qed.

(** C3, as the code has it: a GET with a valid [skyaddr] after the
    start time, for which the service returns an empty list and no
    error, is answered 200 with one JSON document that is not an
    error body: the empty object.  [Statuses] is tagged [omitempty],
    so the [statuses] member is left out of it. *)
Theorem StatusHandler_empty_list (r : Request) (s0 : hstate) :
  respSent (resp s0) = None ->
  Method r = MethodGet ->
  Values_Get "skyaddr" (Query r) <> "" ->
  DecodeBase58Address (Values_Get "skyaddr" (Query r)) = None ->
  (StartAt (Config hs) < now)%Z ->
  GetDepositStatuses svc (Values_Get "skyaddr" (Query r)) = ([], None) ->
  let s := snd (Status r s0) in
  respStatus (resp s) = Some StatusOK
  /\ respBody (resp s) = respBody (resp s0) ++ [JSONBody (JObject [])]
  /\ json_field "statuses" (JObject []) = None.
Proof.
  intros H0 Hm Hs Hd Hnow Hg s. subst s.
  assert (Ha : After (UTC now) (UTC (StartAt (Config hs))) = true).
  { unfold After, UTC. apply Z.ltb_lt. exact Hnow. }
  start_from s0 H0. to_bool.
  unfold_handler. simpl. rewrite Hm. simpl. rewrite Hs. simpl.
  rewrite Hd, Ha. simpl. rewrite Hg. simpl. auto.
Qed.

(** A non-empty list does appear under [statuses]. *)
Lemma StatusHandler_nonempty_list (r : Request) (s0 : hstate)
      (d : DepositStatus) (ds : list DepositStatus) :
  respSent (resp s0) = None ->
  Method r = MethodGet ->
  Values_Get "skyaddr" (Query r) <> "" ->
  DecodeBase58Address (Values_Get "skyaddr" (Query r)) = None ->
  (StartAt (Config hs) < now)%Z ->
  GetDepositStatuses svc (Values_Get "skyaddr" (Query r)) = (d :: ds, None) ->
  let s := snd (Status r s0) in
  respStatus (resp s) = Some StatusOK
  /\ exists doc, respBody (resp s) = respBody (resp s0) ++ [JSONBody doc]
                 /\ json_field "statuses" doc
                    = Some (JArray (map marshal_DepositStatus (d :: ds))).
Proof.
  intros H0 Hm Hs Hd Hnow Hg s. subst s.
  assert (Ha : After (UTC now) (UTC (StartAt (Config hs))) = true).
  { unfold After, UTC. apply Z.ltb_lt. exact Hnow. }
  start_from s0 H0. to_bool.
  unfold_handler. simpl. rewrite Hm. simpl. rewrite Hs. simpl.
  rewrite Hd, Ha. simpl. rewrite Hg. simpl. eauto.
Qed.

(** The [switch] on [coin_type] answers 400 but does not leave the
    handler: with a valid address after the start time the service is
    called all the same, and a second body follows the error body. *)
Lemma BindHandler_bad_coin_type (r : Request) (s0 : hstate) (req : bindRequest) :
  respSent (resp s0) = None ->
  Method r = MethodPost ->
  Values_Get "Content-Type" (ReqHeader r) = "application/json" ->
  Body r = Decoded req ->
  SkyAddr req <> "" ->
  ReqCoinType req <> CoinTypeBTC ->
  let s := snd (Bind r s0) in
  respStatus (resp s) = Some StatusBadRequest
  /\ (exists b, respBody (resp s)
                = respBody (resp s0) ++ [ErrorBody StatusBadRequest []; b])
  /\ (DecodeBase58Address (SkyAddr req) = None ->
      (StartAt (Config hs) < now)%Z ->
      hcalls s = hcalls s0 ++ [CallBindAddress (SkyAddr req)]).
Proof.
  intros H0 Hm Hc Hb Hs Hk s. subst s. start_from s0 H0. to_bool.
  apply String.eqb_neq in Hk.
  unfold_handler. simpl. rewrite Hm, Hc, Hb. simpl. rewrite Hs, Hk. simpl.
  unfold After, UTC.
  destruct (ReqCoinType req =? "")%string; simpl;
    destruct (DecodeBase58Address (SkyAddr req)) eqn:Hd; simpl;
    destruct (StartAt (Config hs) <? now)%Z eqn:Ha; simpl;
    destruct (BindAddress svc (SkyAddr req)) as [btcAddr [e|]]; simpl;
    rewrite <- ?app_assoc; simpl;
    (split; [reflexivity|split; [eexists; reflexivity|]]);
    intros Hd' Ha'; try discriminate Hd'; try reflexivity;
    apply Z.ltb_lt in Ha'; congruence.
Qed.

(** Every path through [StatusHandler] writes exactly one body. *)
Lemma StatusHandler_one_body (r : Request) (s0 : hstate) :
  respBody (resp s0) = [] ->
  length (respBody (resp (snd (Status r s0)))) = 1%nat.
Proof.
  intros H0. start_from s0 H0. unfold_handler. simpl.
  destruct (Method r =? MethodGet)%string; simpl;
    [|destruct sent0; reflexivity].
  destruct (str_empty (Values_Get "skyaddr" (Query r))); simpl;
    [destruct sent0; reflexivity|].
  destruct (DecodeBase58Address (Values_Get "skyaddr" (Query r))); simpl;
    [destruct sent0; reflexivity|].
  destruct (After (UTC now) (UTC (StartAt (Config hs)))); simpl;
    [|destruct sent0; reflexivity].
  destruct (GetDepositStatuses svc (Values_Get "skyaddr" (Query r))) as [ds [e|]]; simpl;
    destruct sent0; reflexivity.
Qed.

(** So does every path through [BindHandler] on which the body
    decodes to a request whose [coin_type] is the supported one. *)
Lemma BindHandler_one_body (r : Request) (s0 : hstate) :
  respBody (resp s0) = [] ->
  Body r <> DecodeNull ->
  (forall req, Body r = Decoded req -> SkyAddr req <> "" ->
               ReqCoinType req = CoinTypeBTC) ->
  length (respBody (resp (snd (Bind r s0)))) = 1%nat.
Proof.
  intros H0 Hn Hk. start_from s0 H0. unfold_handler. simpl.
  destruct (Method r =? MethodPost)%string; simpl;
    [|destruct sent0; reflexivity].
  destruct (Values_Get "Content-Type" (ReqHeader r) =? "application/json")%string; simpl;
    [|destruct sent0; reflexivity].
  destruct (Body r) as [err| |req]; simpl;
    [destruct sent0; reflexivity | congruence |].
  destruct (str_empty (SkyAddr req)) eqn:Hs; simpl;
    [destruct sent0; reflexivity|].
  apply str_empty_false in Hs.
  rewrite (Hk req eq_refl Hs), String.eqb_refl. simpl.
  destruct (DecodeBase58Address (SkyAddr req)); simpl;
    [destruct sent0; reflexivity|].
  destruct (After (UTC now) (UTC (StartAt (Config hs)))); simpl;
    [|destruct sent0; reflexivity].
  destruct (BindAddress svc (SkyAddr req)) as [btcAddr [e|]]; simpl;
    destruct sent0; reflexivity.
Qed.

End HandlerProperties.

(** ** The properties on the sample inputs *)

Lemma Validate_spec_witness :
  is_err (Validate cfg_no_address) = true
  /\ is_err (Validate cfg_https_no_tls) = true
  /\ is_err (Validate cfg_cert_only) = true
  /\ is_err (Validate cfg_auto_and_pair) = true
  /\ is_err (Validate cfg_tls_no_https) = true
  /\ Validate cfg_http_only = None.
Proof.
  split; [|split; [|split; [|split; [|split]]]].
  - apply (proj1 (Validate_spec cfg_no_address)). split; reflexivity.
  - apply (proj1 (proj2 (Validate_spec cfg_https_no_tls))).
    split; [discriminate|]. split; [reflexivity|]. left; reflexivity.
  - apply (proj1 (proj2 (proj2 (Validate_spec cfg_cert_only)))).
    right. split; [discriminate | reflexivity].
  - apply (proj1 (proj2 (proj2 (proj2 (Validate_spec cfg_auto_and_pair))))).
    repeat split; discriminate.
  - apply (proj1 (proj2 (proj2 (proj2 (proj2 (Validate_spec cfg_tls_no_https)))))).
    split; [reflexivity|]. left; discriminate.
  - apply (proj2 (proj2 (proj2 (proj2 (proj2 (Validate_spec cfg_http_only)))))).
    split; [discriminate|]. repeat split; reflexivity.
Defined.

Lemma Run_secureMiddleware_hosts_witness :
  (AllowedHosts (Run_secureMiddleware cfg_auto_tls) = ["teller.example.com"]
   /\ SSLHost (Run_secureMiddleware cfg_auto_tls) = "teller.example.com")
  /\ (AllowedHosts (Run_secureMiddleware cfg_http_only) = []
      /\ SSLHost (Run_secureMiddleware cfg_http_only) = ""
      /\ SSLRedirect (Run_secureMiddleware cfg_http_only) = false).
Proof.
  split.
  - apply (proj1 (Run_secureMiddleware_hosts (newHTTPServer cfg_auto_tls))).
    simpl. discriminate.
  - destruct (proj1 (proj2 (Run_secureMiddleware_hosts (newHTTPServer cfg_http_only)))
                eq_refl) as (Ha & Hs & Hr & _).
    split; [exact Ha|]. split; [exact Hs|]. apply Hr. reflexivity.
Defined.

Lemma Shutdown_without_Run_witness :
  Shutdown (fun _ => None) sample_hs = ([], Returned sample_hs)
  /\ quit (Shutdown_done (fun _ => None) (Run_setup sample_hs)) = ChanNil
  /\ exists evs2 hs'',
       Shutdown (fun _ => None) (Shutdown_done (fun _ => None) (Run_setup sample_hs))
       = (evs2, Returned hs'')
       /\ ~ In EvCloseQuit evs2
       /\ quit hs'' = ChanNil.
Proof.
  split.
  - apply (proj1 (Shutdown_without_Run (fun _ => None) sample_hs)); reflexivity.
  - apply (proj2 (Shutdown_without_Run (fun _ => None) (Run_setup sample_hs))
             (fst (Shutdown (fun _ => None) (Run_setup sample_hs)))).
    reflexivity.
Defined.

Lemma BindHandler_method_and_content_type_witness :
  respStatus (resp (sample_Bind 2000 (sample_bind_request "GET" "application/json" "BTC")))
  = Some StatusMethodNotAllowed
  /\ respStatus (resp (sample_Bind 2000 (sample_bind_request "POST" "text/plain" "BTC")))
     = Some StatusUnsupportedMediaType.
Proof.
  split.
  - apply (BindHandler_method_and_content_type "BTC" string sample_DecodeBase58Address
             sample_formatTime sample_service sample_hs 2000
             (sample_bind_request "GET" "application/json" "BTC") hstate0 eq_refl).
    simpl. discriminate.
  - apply (BindHandler_method_and_content_type "BTC" string sample_DecodeBase58Address
             sample_formatTime sample_service sample_hs 2000
             (sample_bind_request "POST" "text/plain" "BTC") hstate0 eq_refl).
    + reflexivity.
    + vm_compute. discriminate.
Defined.

Lemma handlers_before_start_witness :
  (respStatus (resp (sample_Bind 1000 (sample_bind_request "POST" "application/json" "BTC")))
   = Some StatusForbidden
   /\ hcalls (sample_Bind 1000 (sample_bind_request "POST" "application/json" "BTC")) = [])
  /\ (respStatus (resp (sample_Status 1000 sample_status_request)) = Some StatusForbidden
      /\ hcalls (sample_Status 1000 sample_status_request) = []).
Proof.
  assert (Hnow : (1000 <= StartAt (Config sample_hs))%Z) by (simpl; lia).
  split.
  - destruct (proj1 (handlers_before_start "BTC" string JString sample_DecodeBase58Address
                       sample_formatTime sample_service sample_hs 1000
                       (sample_bind_request "POST" "application/json" "BTC") hstate0
                       eq_refl Hnow)
                {| SkyAddr := sample_skyAddr; ReqCoinType := "BTC" |})
      as (Hst & _ & Hc).
    + reflexivity.
    + vm_compute. reflexivity.
    + reflexivity.
    + simpl. discriminate.
    + reflexivity.
    + reflexivity.
    + split; [exact Hst | exact Hc].
  - destruct (proj2 (handlers_before_start "BTC" string JString sample_DecodeBase58Address
                       sample_formatTime sample_service sample_hs 1000
                       sample_status_request hstate0 eq_refl Hnow))
      as (Hst & _ & Hc).
    + reflexivity.
    + vm_compute. discriminate.
    + vm_compute. reflexivity.
    + split; [exact Hst | exact Hc].
Defined.

Lemma BindHandler_response_coin_type_witness :
  exists req,
    Body (sample_bind_request "POST" "application/json" "ETH") = Decoded req
    /\ JObject [("deposit_address", JString sample_btcAddr); ("coin_type", JString "BTC")]
       = marshal_BindResponse
           {| DepositAddress := fst (BindAddress sample_service (SkyAddr req));
              CoinType := "BTC" |}
    /\ ("BTC" <> "" ->
        json_field "coin_type"
          (JObject [("deposit_address", JString sample_btcAddr); ("coin_type", JString "BTC")])
        = Some (JString "BTC")).
Proof.
  apply (BindHandler_response_coin_type "BTC" string sample_DecodeBase58Address
           sample_formatTime sample_service sample_hs 2000
           (sample_bind_request "POST" "application/json" "ETH") hstate0).
  - reflexivity.
  - vm_compute. right. left. reflexivity.
Defined.

Lemma StatusHandler_empty_list_witness :
  respStatus (resp (sample_Status 2000 sample_status_request)) = Some StatusOK
  /\ respBody (resp (sample_Status 2000 sample_status_request)) = [JSONBody (JObject [])]
  /\ json_field "statuses" (JObject []) = None.
Proof.
  apply (StatusHandler_empty_list string JString sample_DecodeBase58Address
           sample_formatTime sample_service sample_hs 2000 sample_status_request hstate0).
  - reflexivity.
  - reflexivity.
  - vm_compute. discriminate.
  - vm_compute. reflexivity.
  - simpl. lia.
  - reflexivity.
Defined.

(** C3, as stated, fails: for a GET with a valid address after the
    start time and a service that returns an empty list and no error,
    the one body written is a JSON document without a [statuses]
    member. *)
Lemma StatusHandler_empty_list_omits_statuses :
  let r := sample_status_request in
  let s := sample_Status 2000 r in
  (Method r = MethodGet
   /\ sample_DecodeBase58Address (Values_Get "skyaddr" (Query r)) = None
   /\ (StartAt (Config sample_hs) < 2000)%Z
   /\ GetDepositStatuses sample_service (Values_Get "skyaddr" (Query r)) = ([], None))
  /\ respStatus (resp s) = Some StatusOK
  /\ ~ exists doc items,
         In (JSONBody doc) (respBody (resp s))
         /\ json_field "statuses" doc = Some (JArray items).
Proof.
  vm_compute. split; [repeat split|]. split; [reflexivity|].
  intros (doc & items & [Hin|[]] & Hf).
  inversion Hin; subst. discriminate Hf.
Qed.

(** C1: a POST with a JSON body, a valid [skyaddr] and no [coin_type],
    served after the start time, is answered 400, and yet
    [BindAddress] is called for the address. *)
Theorem BindHandler_missing_coin_type_calls_service :
  let s := sample_Bind 2000 (sample_bind_request "POST" "application/json" "") in
  respStatus (resp s) = Some StatusBadRequest
  /\ hcalls s = [CallBindAddress sample_skyAddr].
Proof. vm_compute. split; reflexivity. Qed.

(** C2: a POST with a JSON body, a valid [skyaddr] and an unsupported
    [coin_type], served after the start time, is rejected with 400, and
    its error body is followed by a second body, the [BindResponse]. *)
Theorem BindHandler_invalid_coin_type_two_bodies :
  let s := sample_Bind 2000 (sample_bind_request "POST" "application/json" "ETH") in
  respStatus (resp s) = Some StatusBadRequest
  /\ respBody (resp s)
     = [ErrorBody StatusBadRequest [];
        JSONBody (JObject [("deposit_address", JString sample_btcAddr);
                           ("coin_type", JString "BTC")])].
Proof. vm_compute. split; reflexivity. Qed.

(** The same request before the start time gets two error bodies. *)
Example BindHandler_invalid_coin_type_before_start :
  respBody (resp (sample_Bind 1000 (sample_bind_request "POST" "application/json" "ETH")))
  = [ErrorBody StatusBadRequest [];
     ErrorBody StatusForbidden ["Event starts at " +:+ sample_formatTime 1000]].
Proof. vm_compute. reflexivity. Qed.

(** C7: [Run] serves HTTP only; a [Shutdown] closes the gate, drains
    the listener and returns, resetting [hs.quit] to nil; the
    listener's error is looked at after that.  The gate was closed by
    [Shutdown] before the error is observed, and [Run] returns the
    error instead of nil. *)
Theorem Run_error_after_Shutdown_returned :
  let hs1 := Run_setup sample_hs in
  In EvCloseQuit (fst (Shutdown (fun _ => None) hs1))
  /\ quit (meanwhile world_Shutdown_returned hs1) = ChanNil
  /\ snd (Run world_Shutdown_returned sample_hs)
     = Returned (Some "http serve failed: http: Server closed").
Proof. vm_compute. split; [left; reflexivity | split; reflexivity]. Qed.

(** Seen while that [Shutdown] is still draining, the same error is
    suppressed; and without any [Shutdown] a bind failure is returned. *)
Example Run_error_while_Shutdown_draining :
  snd (Run world_Shutdown_draining sample_hs) = Returned None.
Proof. reflexivity. Qed.

Example Run_bind_failure :
  snd (Run world_bind_failure sample_hs)
  = Returned (Some "http serve failed: listen tcp 127.0.0.1:7071: bind: address already in use").
Proof. reflexivity. Qed.

(** [Run] on a server with no address at all calls a method of the nil
    HTTP listener. *)
Example Run_no_address_panics :
  snd (Run world_bind_failure (newHTTPServer cfg_no_address)) = Panicked.
Proof. reflexivity. Qed.

(** * Further properties *)

(** ** The configuration validator, characterised *)

(** X1: [Validate] returns nil exactly for the well-formed
    configurations: some listen address; with [HTTPSAddr] either
    [AutoTLSHost] alone or the cert/key pair alone; without
    [HTTPSAddr] no TLS option at all. *)
Theorem Validate_nil_iff_well_formed (c : HTTPConfig) :
  Validate c = None <-> well_formed c.
Proof.
  unfold well_formed, Validate, errors_New.
  rewrite <- !str_empty_true.
  destruct (str_empty (HTTPAddr c)), (str_empty (HTTPSAddr c)),
    (str_empty (AutoTLSHost c)), (str_empty (TLSCert c)), (str_empty (TLSKey c));
    simpl; split; intros E; try discriminate E; try reflexivity;
    intuition congruence.
Qed.

(** ** [Run]: listeners and results *)

Lemma Config_Run_setup (hs : httpServer) : Config (Run_setup hs) = Config hs.
Proof.
  unfold Run_setup.
  destruct (negb (str_empty (HTTPAddr (Config hs)))),
    (negb (str_empty (HTTPSAddr (Config hs)))); reflexivity.
Qed.

Lemma httpListener_Run_setup (hs : httpServer) :
  httpListener (Run_setup hs)
  = if str_empty (HTTPAddr (Config hs)) then httpListener hs
    else Some (setupHTTPListener (HTTPAddr (Config hs)) (Run_mux (Config hs))).
Proof.
  unfold Run_setup.
  destruct (str_empty (HTTPAddr (Config hs))),
    (negb (str_empty (HTTPSAddr (Config hs)))); reflexivity.
Qed.

Lemma httpsListener_Run_setup (hs : httpServer) :
  httpsListener (Run_setup hs)
  = if str_empty (HTTPSAddr (Config hs)) then httpsListener hs
    else Some (fst (fst (Run_httpsListener (Config hs)))).
Proof.
  unfold Run_setup.
  destruct (str_empty (HTTPAddr (Config hs))),
    (str_empty (HTTPSAddr (Config hs))); reflexivity.
Qed.

Lemma Run_listen_cases (w : run_world) (hs : httpServer) :
  let cfg := Config hs in
  Run_listen w (Run_setup hs)
  = if str_empty (HTTPSAddr cfg) then
      match httpListener (Run_setup hs) with
      | Some ln => Returned (ListenAndServe w ln)
      | None => Panicked
      end
    else if str_empty (HTTPAddr cfg) then
      Returned (ListenAndServeTLS w (fst (fst (Run_httpsListener cfg)))
                  (snd (fst (Run_httpsListener cfg))) (snd (Run_httpsListener cfg)))
    else
      match dualSelect w with
      | RecvErr err => Returned (Some err)
      | RecvQuit | RecvDone => Returned None
      end.
Proof.
  intros cfg. unfold Run_listen.
  rewrite httpsListener_Run_setup, Config_Run_setup. fold cfg.
  destruct (str_empty (HTTPSAddr cfg)); simpl; [reflexivity|].
  destruct (Run_httpsListener cfg) as [[ln c] k]; simpl.
  destruct (str_empty (HTTPAddr cfg)); reflexivity.
Qed.


(** X3: the only errors [Run] returns are listener errors wrapped as
    "http serve failed: ...", and only when [hs.quit] is not a closed
    channel at that moment; with both listeners running the error is
    the one received from [errC]. *)
Theorem Run_error_origin (w : run_world) (hs : httpServer) (e : string) :
  snd (Run w hs) = Returned (Some e) ->
  exists err,
    Run_listen w (Run_setup hs) = Returned (Some err)
    /\ e = "http serve failed: " +:+ err
    /\ quit (meanwhile w (Run_setup hs)) <> ChanClosed
    /\ (HTTPAddr (Config hs) <> "" -> HTTPSAddr (Config hs) <> "" ->
        dualSelect w = RecvErr err).
Proof.
  intros H. destruct (Run_listen w (Run_setup hs)) as [ferr|] eqn:Hl.
  - rewrite (Run_result _ _ _ Hl) in H. destruct ferr as [err|]; [|discriminate H].
    exists err. rewrite handleListenErr_gate in H.
    split; [reflexivity|].
    destruct (quit (meanwhile w (Run_setup hs))) eqn:Hq;
      try discriminate H; inversion H; subst;
      (split; [reflexivity|]); (split; [discriminate|]);
      intros Ha Hs; to_bool;
      rewrite Run_listen_cases, Hs, Ha in Hl;
      destruct (dualSelect w); congruence.
  - unfold Run in H. rewrite Hl in H. discriminate H.
Qed.

(** X19: given that the listener call of [Run] returned an error, [Run]
    returns nil if and only if [hs.quit] holds a closed channel at that
    moment; a gate that is still open, or already reset to nil, lets
    the error through. *)
Theorem Run_suppresses_iff_gate_closed (w : run_world) (hs : httpServer) (err : string) :
  Run_listen w (Run_setup hs) = Returned (Some err) ->
  (snd (Run w hs) = Returned None <-> quit (meanwhile w (Run_setup hs)) = ChanClosed)
  /\ (snd (Run w hs) = Returned (Some ("http serve failed: " +:+ err))
      <-> quit (meanwhile w (Run_setup hs)) <> ChanClosed).
Proof.
  intros H. rewrite (Run_result _ _ _ H), handleListenErr_gate.
  destruct (quit (meanwhile w (Run_setup hs))); split; split; intros Hq;
    first [reflexivity | discriminate Hq | exfalso; apply Hq; reflexivity | idtac].
  all: first [discriminate | congruence].
Qed.

(** X4: every listener [Run] creates listens on the configured address
    with the read, write and idle timeouts of 10 s, 60 s and 120 s; a
    listener whose address is empty is left as it was. *)
Theorem Run_setup_listeners (hs : httpServer) :
  let cfg := Config hs in
  (HTTPAddr cfg <> "" ->
     exists ln, httpListener (Run_setup hs) = Some ln
                /\ Addr ln = HTTPAddr cfg /\ ServerTLSConfig ln = None
                /\ ReadTimeout ln = Second * 10 /\ WriteTimeout ln = Second * 60
                /\ IdleTimeout ln = Second * 120)
  /\ (HTTPSAddr cfg <> "" ->
     exists ln, httpsListener (Run_setup hs) = Some ln
                /\ Addr ln = HTTPSAddr cfg
                /\ ReadTimeout ln = Second * 10 /\ WriteTimeout ln = Second * 60
                /\ IdleTimeout ln = Second * 120)
  /\ (HTTPAddr cfg = "" -> httpListener (Run_setup hs) = httpListener hs)
  /\ (HTTPSAddr cfg = "" -> httpsListener (Run_setup hs) = httpsListener hs).
Proof.
  intros cfg. rewrite httpListener_Run_setup, httpsListener_Run_setup. fold cfg.
  split; [|split; [|split]]; intros H; to_bool; rewrite H.
  - eexists. split; [reflexivity|]. repeat split.
  - eexists. split; [reflexivity|]. unfold Run_httpsListener.
    destruct (str_empty (AutoTLSHost cfg)); repeat split.
  - reflexivity.
  - reflexivity.
Qed.

(** X5: for a configuration that passes [Validate] and has an HTTPS
    address, the HTTPS listener always has a source of certificates:
    either the autocert manager for [AutoTLSHost] caching in
    "cert-cache", with empty cert and key paths handed to
    [ListenAndServeTLS], or no manager and the configured, non-empty
    cert and key paths. *)
Theorem Run_https_certificates (cfg : HTTPConfig) :
  Validate cfg = None ->
  HTTPSAddr cfg <> "" ->
  let ln := fst (fst (Run_httpsListener cfg)) in
  let tlsCert := snd (fst (Run_httpsListener cfg)) in
  let tlsKey := snd (Run_httpsListener cfg) in
  (AutoTLSHost cfg <> ""
   /\ ServerTLSConfig ln = Some {| autocertHost := AutoTLSHost cfg;
                                   autocertCache := "cert-cache" |}
   /\ tlsCert = "" /\ tlsKey = "")
  \/ (AutoTLSHost cfg = ""
      /\ ServerTLSConfig ln = None
      /\ tlsCert = TLSCert cfg /\ tlsKey = TLSKey cfg
      /\ tlsCert <> "" /\ tlsKey <> "").
Proof.
  intros Hv Hs. apply Validate_nil_inv in Hv.
  destruct Hv as (_ & Hmode & _ & Hauto & _). specialize (Hmode Hs).
  unfold Run_httpsListener.
  destruct (str_empty (AutoTLSHost cfg)) eqn:Ha; simpl.
  - right. apply str_empty_true in Ha.
    destruct Hmode as [Hmode | [Hc Hk]]; [contradiction|].
    repeat split; assumption.
  - left. apply str_empty_false in Ha. repeat split. exact Ha.
Qed.

(** X6: for a configuration that passes [Validate], the security
    middleware redirects plain HTTP to HTTPS exactly when an HTTPS
    address is configured, and its SSL host is non-empty exactly
    then. *)
Theorem Run_redirect_iff_https (cfg : HTTPConfig) :
  Validate cfg = None ->
  (SSLRedirect (Run_secureMiddleware cfg) = true <-> HTTPSAddr cfg <> "")
  /\ (SSLHost (Run_secureMiddleware cfg) <> "" <-> HTTPSAddr cfg <> "").
Proof.
  intros Hv. apply Validate_nil_inv in Hv.
  destruct Hv as (_ & _ & _ & _ & Hno).
  unfold Run_secureMiddleware, Run_hosts, configureSecureMiddleware.
  destruct (str_empty (AutoTLSHost cfg)) eqn:Ha; simpl.
  - destruct (str_empty (HTTPSAddr cfg)) eqn:Hs.
    + apply str_empty_true in Hs. rewrite Hs. split; split; congruence.
    + apply str_empty_false in Hs. split; split; auto.
  - apply str_empty_false in Ha.
    assert (Hs : HTTPSAddr cfg <> "").
    { intros Hs. destruct (Hno Hs) as (Ha' & _). contradiction. }
    rewrite (proj2 (str_empty_false _) Ha). split; split; auto.
Qed.

(** ** [Shutdown]: what it closes, drains and leaves behind *)

Lemma count_close_app (a b : list event) :
  count_close (a ++ b) = (count_close a + count_close b)%nat.
Proof.
  induction a as [|e a IH]; simpl; [reflexivity|].
  destruct e; simpl; rewrite IH; reflexivity.
Qed.

Lemma drained_app (a b : list event) : drained (a ++ b) = drained a ++ drained b.
Proof.
  induction a as [|e a IH]; simpl; [reflexivity|].
  destruct e; simpl; rewrite IH; reflexivity.
Qed.

Lemma shutdown_events (srvShutdown : Server -> error) (proto : string) (ln : option Server) :
  count_close (shutdown srvShutdown proto ln) = 0%nat
  /\ drained (shutdown srvShutdown proto ln)
     = match ln with
       | Some srv => [(proto, srv, shutdownTimeout)]
       | None => []
       end.
Proof.
  destruct ln as [srv|]; simpl; [|auto].
  destruct (srvShutdown srv); simpl; auto.
Qed.

Lemma Shutdown_drain_events (srvShutdown : Server -> error) (hs : httpServer) :
  count_close (Shutdown_drain srvShutdown hs) = 0%nat
  /\ drained (Shutdown_drain srvShutdown hs)
     = match httpListener hs with
       | Some srv => [("HTTP", srv, shutdownTimeout)]
       | None => []
       end
       ++ match httpsListener hs with
          | Some srv => [("HTTPS", srv, shutdownTimeout)]
          | None => []
          end.
Proof.
  unfold Shutdown_drain. rewrite count_close_app, drained_app.
  destruct (shutdown_events srvShutdown "HTTP" (httpListener hs)) as [-> ->].
  destruct (shutdown_events srvShutdown "HTTPS" (httpsListener hs)) as [-> ->].
  split; reflexivity.
Qed.

(** X7: [Shutdown] returns unless [hs.quit] is a channel that is
    already closed (then [close] panics); whatever the listeners'
    own shutdown errors, when it returns the configuration and both
    listener fields are unchanged and [hs.quit] is nil. *)
Theorem Shutdown_returns_iff (srvShutdown : Server -> error) (hs : httpServer) :
  (quit hs <> ChanClosed
   <-> exists evs hs', Shutdown srvShutdown hs = (evs, Returned hs'))
  /\ (forall evs hs',
        Shutdown srvShutdown hs = (evs, Returned hs') ->
        Config hs' = Config hs /\ httpListener hs' = httpListener hs
        /\ httpsListener hs' = httpsListener hs /\ quit hs' = ChanNil).
Proof.
  split.
  - split.
    + intros Hq. destruct (Shutdown_returns srvShutdown hs Hq) as (evs & hs' & H & _).
      eauto.
    + intros (evs & hs' & H) Hq. unfold Shutdown, Shutdown_close in H.
      rewrite Hq in H. discriminate H.
  - intros evs hs' H. unfold Shutdown, Shutdown_close in H.
    destruct (quit hs); inversion H; subst; repeat split.
Qed.

(** X8: a [Shutdown] that returns has closed the gate once if it was
    open and not at all if it was nil, before anything else; and it
    has drained every listener the server holds exactly once, HTTP
    before HTTPS, each with the 5 s timeout, whether or not the
    drains fail. *)
Theorem Shutdown_closes_and_drains (srvShutdown : Server -> error) (hs : httpServer)
        (evs : list event) (hs' : httpServer) :
  Shutdown srvShutdown hs = (evs, Returned hs') ->
  count_close evs = (if quit hs is ChanOpen then 1 else 0)%nat
  /\ (quit hs = ChanOpen -> head evs = Some EvCloseQuit)
  /\ drained evs
     = match httpListener hs with
       | Some srv => [("HTTP", srv, Second * 5)]
       | None => []
       end
       ++ match httpsListener hs with
          | Some srv => [("HTTPS", srv, Second * 5)]
          | None => []
          end.
Proof.
  intros H. unfold Shutdown, Shutdown_close in H.
  destruct (quit hs) eqn:Hq; inversion H; subst; clear H;
    rewrite ?count_close_app, ?drained_app; simpl;
    destruct (Shutdown_drain_events srvShutdown hs) as [Hc Hd];
    destruct (Shutdown_drain_events srvShutdown (set_quit ChanClosed hs)) as [Hc' Hd'];
    simpl in Hd'.
  - rewrite Hc, Hd. split; [reflexivity|]. split; [discriminate | reflexivity].
  - rewrite Hc', Hd'. split; [reflexivity|]. split; reflexivity.
Qed.

(** X9: [Shutdown] does not forget the listeners: a second [Shutdown]
    after one that returned drains the same listeners once more (and
    closes nothing). *)
Theorem Shutdown_twice_drains_again (srvShutdown : Server -> error) (hs : httpServer)
        (evs : list event) (hs' : httpServer) :
  Shutdown srvShutdown hs = (evs, Returned hs') ->
  exists evs2 hs2,
    Shutdown srvShutdown hs' = (evs2, Returned hs2)
    /\ drained evs2 = drained evs
    /\ count_close evs2 = 0%nat.
Proof.
  intros H.
  exists (Shutdown_drain srvShutdown hs'), (set_quit ChanNil hs').
  destruct (Shutdown_drain_events srvShutdown hs') as [Hc2 Hd2].
  unfold Shutdown, Shutdown_close in H.
  destruct (quit hs) eqn:Hq; inversion H; subst; clear H.
  - split; [reflexivity|]. split; [|exact Hc2].
    rewrite Hd2. simpl.
    destruct (Shutdown_drain_events srvShutdown hs) as [_ ->]. reflexivity.
  - split; [reflexivity|]. split; [|exact Hc2].
    rewrite Hd2. simpl.
    destruct (Shutdown_drain_events srvShutdown (set_quit ChanClosed hs)) as [_ ->].
    reflexivity.
Qed.

Lemma Run_setup_set_quit (q : chan) (hs : httpServer) :
  Run_setup (set_quit q hs) = Run_setup hs.
Proof. reflexivity. Qed.

Lemma Run_setup_idempotent (hs : httpServer) : Run_setup (Run_setup hs) = Run_setup hs.
Proof.
  unfold Run_setup at 1. rewrite Config_Run_setup.
  destruct hs as [cfg hl hsl q]. unfold Run_setup. simpl.
  destruct (str_empty (HTTPAddr cfg)), (str_empty (HTTPSAddr cfg)); reflexivity.
Qed.

(** X10: after a [Run] and a [Shutdown] that returned, the server is
    ready for a fresh [Run]: setting it up again gives an open gate and
    the very listeners of the first start. *)
Theorem Run_setup_after_Shutdown (srvShutdown : Server -> error) (hs : httpServer)
        (evs : list event) (hs' : httpServer) :
  Shutdown srvShutdown (Run_setup hs) = (evs, Returned hs') ->
  Run_setup hs' = Run_setup hs /\ quit (Run_setup hs') = ChanOpen.
Proof.
  intros H. split; [|apply quit_Run_setup].
  unfold Shutdown, Shutdown_close in H. rewrite quit_Run_setup in H.
  inversion H; subst. rewrite !Run_setup_set_quit. apply Run_setup_idempotent.
Qed.

(** ** The handlers, path by path *)

(** X11: [validMethod], for any list of allowed methods: it answers
    true exactly when the request method is in the list, and then
    touches nothing; otherwise it sets [Allow] to the list joined by
    ", ", and on a response not yet started sends 405 with one error
    body. *)
Theorem validMethod_spec (r : Request) (allowed : list string) (s0 : hstate) :
  let res := validMethod r allowed s0 in
  (fst res = true <-> In (Method r) allowed)
  /\ (fst res = true -> snd res = s0)
  /\ (fst res = false ->
      Values_Get "Allow" (respHeader (resp (snd res))) = strings_Join allowed ", "
      /\ hcalls (snd res) = hcalls s0
      /\ (respSent (resp s0) = None ->
          respStatus (resp (snd res)) = Some StatusMethodNotAllowed
          /\ respBody (resp (snd res))
             = respBody (resp s0) ++ [ErrorBody StatusMethodNotAllowed []])).
Proof.
  intros res. subst res. unfold validMethod.
  assert (Hin : existsb (String.eqb (Method r)) allowed = true <-> In (Method r) allowed).
  { rewrite existsb_exists. split.
    - intros (m & Hm & He). apply String.eqb_eq in He. subst. exact Hm.
    - intros Hm. exists (Method r). split; [exact Hm | apply String.eqb_refl]. }
  destruct (existsb (String.eqb (Method r)) allowed).
  - unfold ret. simpl. split; [exact Hin|]. split; [reflexivity | discriminate].
  - split; [unfold_handler; simpl; rewrite <- Hin; tauto|].
    split; [unfold_handler; simpl; discriminate|]. intros _.
    destruct s0 as [[h0 sent0 body0] log0 calls0]. unfold_handler. simpl.
    split; [destruct sent0; apply Values_Get_Set|].
    split; [reflexivity|]. intros ->. split; reflexivity.
Qed.

Section HandlerBehaviour.

Variable CoinTypeBTC : string.
Variable DepositStatus : Type.
Variable marshal_DepositStatus : DepositStatus -> json.
Variable DecodeBase58Address : string -> error.
Variable formatTime : Time -> string.
Variable svc : service DepositStatus.
Variable hs : httpServer.
Variable now : Time.

Local Abbreviation Bind :=
  (BindHandler CoinTypeBTC DepositStatus DecodeBase58Address formatTime svc hs now).
Local Abbreviation Status :=
  (StatusHandler DepositStatus marshal_DepositStatus DecodeBase58Address
     formatTime svc hs now).

(** X12: [BindHandler] calls the service at most once, only
    [BindAddress], and only for a POST with a JSON content type whose
    body carries a non-empty address that [DecodeBase58Address]
    accepts, strictly after the start time. *)
Theorem BindHandler_service_guard (r : Request) (s0 : hstate) :
  let s := snd (Bind r s0) in
  hcalls s = hcalls s0
  \/ exists req,
       hcalls s = hcalls s0 ++ [CallBindAddress (SkyAddr req)]
       /\ Method r = MethodPost
       /\ Values_Get "Content-Type" (ReqHeader r) = "application/json"
       /\ Body r = Decoded req
       /\ SkyAddr req <> ""
       /\ DecodeBase58Address (SkyAddr req) = None
       /\ (StartAt (Config hs) < now)%Z.
Proof.
  intros s. subst s. destruct s0 as [[h0 sent0 body0] log0 calls0].
  unfold_handler. simpl.
  destruct (Method r =? MethodPost)%string eqn:Hm; simpl; [|left; reflexivity].
  destruct (Values_Get "Content-Type" (ReqHeader r) =? "application/json")%string eqn:Hc;
    simpl; [|left; reflexivity].
  destruct (Body r) as [err| |req] eqn:Hb; simpl; try (left; reflexivity).
  destruct (str_empty (SkyAddr req)) eqn:Hs; simpl; [left; reflexivity|].
  apply String.eqb_eq in Hc. apply str_empty_false in Hs.
  apply String.eqb_eq in Hm.
  unfold After, UTC.
  destruct (ReqCoinType req =? CoinTypeBTC)%string; simpl;
    [|destruct (ReqCoinType req =? "")%string; simpl];
    (destruct (DecodeBase58Address (SkyAddr req)) eqn:Hd; simpl; [left; reflexivity|]);
    (destruct (StartAt (Config hs) <? now)%Z eqn:Ha; simpl; [|left; reflexivity]);
    apply Z.ltb_lt in Ha;
    destruct (BindAddress svc (SkyAddr req)) as [btcAddr [e|]]; simpl;
    right; exists req; repeat split; assumption.
Qed.

(** X13: [StatusHandler] calls the service at most once, only
    [GetDepositStatuses], and only for a GET whose [skyaddr] parameter
    is non-empty and accepted by [DecodeBase58Address], strictly after
    the start time. *)
Theorem StatusHandler_service_guard (r : Request) (s0 : hstate) :
  let s := snd (Status r s0) in
  let skyAddr := Values_Get "skyaddr" (Query r) in
  hcalls s = hcalls s0
  \/ (hcalls s = hcalls s0 ++ [CallGetDepositStatuses skyAddr]
      /\ Method r = MethodGet
      /\ skyAddr <> ""
      /\ DecodeBase58Address skyAddr = None
      /\ (StartAt (Config hs) < now)%Z).
Proof.
  intros s skyAddr. subst s. destruct s0 as [[h0 sent0 body0] log0 calls0].
  unfold_handler. simpl. fold skyAddr.
  destruct (Method r =? MethodGet)%string eqn:Hm; simpl; [|left; reflexivity].
  destruct (str_empty skyAddr) eqn:Hs; simpl; [left; reflexivity|].
  apply str_empty_false in Hs.
  apply String.eqb_eq in Hm.
  unfold After, UTC.
  destruct (DecodeBase58Address skyAddr) eqn:Hd; simpl; [left; reflexivity|].
  destruct (StartAt (Config hs) <? now)%Z eqn:Ha; simpl; [|left; reflexivity].
  apply Z.ltb_lt in Ha.
  destruct (GetDepositStatuses svc skyAddr) as [ds [e|]]; simpl;
    right; repeat split; assumption.
Qed.

(** X14: a well-formed Bind request for the supported coin type and a
    valid address, served after the start time, for which
    [BindAddress] succeeds, is answered 200 with exactly one body: the
    JSON encoding of the deposit address and [CoinTypeBTC]; the
    service is called once and the handler returns. *)
Theorem BindHandler_success (r : Request) (s0 : hstate) (req : bindRequest)
        (btcAddr : string) :
  respSent (resp s0) = None ->
  Method r = MethodPost ->
  Values_Get "Content-Type" (ReqHeader r) = "application/json" ->
  Body r = Decoded req ->
  SkyAddr req <> "" ->
  ReqCoinType req = CoinTypeBTC ->
  DecodeBase58Address (SkyAddr req) = None ->
  (StartAt (Config hs) < now)%Z ->
  BindAddress svc (SkyAddr req) = (btcAddr, None) ->
  let res := Bind r s0 in
  fst res = Returned tt
  /\ respStatus (resp (snd res)) = Some StatusOK
  /\ respBody (resp (snd res))
     = respBody (resp s0)
       ++ [JSONBody (marshal_BindResponse
                       {| DepositAddress := btcAddr; CoinType := CoinTypeBTC |})]
  /\ hcalls (snd res) = hcalls s0 ++ [CallBindAddress (SkyAddr req)].
Proof.
  intros H0. start_from s0 H0.
  intros Hm Hc Hb Hs Hk Hd Hnow Hsvc res. subst res.
  assert (Ha : After (UTC now) (UTC (StartAt (Config hs))) = true).
  { unfold After, UTC. apply Z.ltb_lt. exact Hnow. }
  to_bool.
  unfold_handler. simpl. rewrite Hm, Hc, Hb. simpl.
  rewrite Hs, Hk, String.eqb_refl. simpl. rewrite Hd, Ha. simpl.
  rewrite Hsvc. simpl. auto.
Qed.

(** X15: when the service returns an error to a request that passed
    every check, either handler answers 400 with one error body that
    carries the text of the service's error, and logs the error at
    error level. *)
Theorem handlers_service_error (r : Request) (s0 : hstate) (e : string) :
  respSent (resp s0) = None ->
  (StartAt (Config hs) < now)%Z ->
  (forall req btcAddr,
      Method r = MethodPost ->
      Values_Get "Content-Type" (ReqHeader r) = "application/json" ->
      Body r = Decoded req ->
      SkyAddr req <> "" ->
      ReqCoinType req = CoinTypeBTC ->
      DecodeBase58Address (SkyAddr req) = None ->
      BindAddress svc (SkyAddr req) = (btcAddr, Some e) ->
      let s := snd (Bind r s0) in
      respStatus (resp s) = Some StatusBadRequest
      /\ respBody (resp s) = respBody (resp s0) ++ [ErrorBody StatusBadRequest [e]]
      /\ In (log_Error (Some e) "service.BindAddress failed") (hlog s))
  /\ (forall ds,
      Method r = MethodGet ->
      Values_Get "skyaddr" (Query r) <> "" ->
      DecodeBase58Address (Values_Get "skyaddr" (Query r)) = None ->
      GetDepositStatuses svc (Values_Get "skyaddr" (Query r)) = (ds, Some e) ->
      let s := snd (Status r s0) in
      respStatus (resp s) = Some StatusBadRequest
      /\ respBody (resp s) = respBody (resp s0) ++ [ErrorBody StatusBadRequest [e]]
      /\ In (log_Error (Some e) "service.GetDepositStatuses failed") (hlog s)).
Proof.
  intros H0 Hnow.
  assert (Ha : After (UTC now) (UTC (StartAt (Config hs))) = true).
  { unfold After, UTC. apply Z.ltb_lt. exact Hnow. }
  start_from s0 H0. split.
  - intros req btcAddr Hm Hc Hb Hs Hk Hd Hsvc s. subst s. to_bool.
    unfold_handler. simpl. rewrite Hm, Hc, Hb. simpl.
    rewrite Hs, Hk, String.eqb_refl. simpl. rewrite Hd, Ha. simpl.
    rewrite Hsvc. simpl. split; [reflexivity|]. split; [reflexivity|].
    rewrite !in_app_iff. right. left. reflexivity.
  - intros ds Hm Hs Hd Hsvc s. subst s. to_bool.
    unfold_handler. simpl. rewrite Hm. simpl. rewrite Hs. simpl.
    rewrite Hd, Ha. simpl. rewrite Hsvc. simpl.
    split; [reflexivity|]. split; [reflexivity|].
    rewrite !in_app_iff. right. left. reflexivity.
Qed.

(** X16: a request that lacks what the handler needs is turned away
    with 400, one error body without a message, one info log entry that
    carries the status and the reason, and no service call: for Bind a
    body that does not decode or an empty [skyaddr]; for Status an
    absent or empty [skyaddr] parameter. *)
Theorem handlers_bad_request (r : Request) (s0 : hstate) :
  respSent (resp s0) = None ->
  let rejected (s : hstate) (reason : string) :=
    respStatus (resp s) = Some StatusBadRequest
    /\ respBody (resp s) = respBody (resp s0) ++ [ErrorBody StatusBadRequest []]
    /\ hlog s = hlog s0 ++ [{| log_level_of := InfoLevel;
                               log_status := Some StatusBadRequest;
                               log_error := Some reason; log_msg := "" |}]
    /\ hcalls s = hcalls s0 in
  (Method r = MethodPost ->
   Values_Get "Content-Type" (ReqHeader r) = "application/json" ->
   (forall err, Body r = DecodeError err ->
                rejected (snd (Bind r s0)) ("Invalid json request body: " +:+ err))
   /\ (forall req, Body r = Decoded req -> SkyAddr req = "" ->
                   rejected (snd (Bind r s0)) "Missing skyaddr"))
  /\ (Method r = MethodGet ->
      Values_Get "skyaddr" (Query r) = "" ->
      rejected (snd (Status r s0)) "Missing skyaddr").
Proof.
  intros H0 rejected. subst rejected. start_from s0 H0. split.
  - intros Hm Hc. split.
    + intros err Hb. unfold_handler. simpl. rewrite Hm, Hc, Hb. simpl. auto.
    + intros req Hb Hs. to_bool. unfold_handler. simpl. rewrite Hm, Hc, Hb. simpl.
      rewrite Hs. simpl. auto.
  - intros Hm Hs. to_bool. unfold_handler. simpl. rewrite Hm. simpl.
    rewrite Hs. simpl. auto.
Qed.

(** X17: an address that [DecodeBase58Address] rejects is answered 400
    with the one body "Invalid skycoin address: <reason>", whatever the
    time, and the service is not called (for Bind: when the coin type
    is the supported one). *)
Theorem handlers_invalid_address (r : Request) (s0 : hstate) (e : string) :
  respSent (resp s0) = None ->
  let msg := "Invalid skycoin address: " +:+ e in
  (forall req,
      Method r = MethodPost ->
      Values_Get "Content-Type" (ReqHeader r) = "application/json" ->
      Body r = Decoded req ->
      SkyAddr req <> "" ->
      ReqCoinType req = CoinTypeBTC ->
      DecodeBase58Address (SkyAddr req) = Some e ->
      let s := snd (Bind r s0) in
      respStatus (resp s) = Some StatusBadRequest
      /\ respBody (resp s) = respBody (resp s0) ++ [ErrorBody StatusBadRequest [msg]]
      /\ hcalls s = hcalls s0)
  /\ (Method r = MethodGet ->
      Values_Get "skyaddr" (Query r) <> "" ->
      DecodeBase58Address (Values_Get "skyaddr" (Query r)) = Some e ->
      let s := snd (Status r s0) in
      respStatus (resp s) = Some StatusBadRequest
      /\ respBody (resp s) = respBody (resp s0) ++ [ErrorBody StatusBadRequest [msg]]
      /\ hcalls s = hcalls s0).
Proof.
  intros H0 msg. subst msg. start_from s0 H0. split.
  - intros req Hm Hc Hb Hs Hk Hd s. subst s. to_bool.
    unfold_handler. simpl. rewrite Hm, Hc, Hb. simpl.
    rewrite Hs, Hk, String.eqb_refl. simpl. rewrite Hd. simpl. auto.
  - intros Hm Hs Hd s. subst s. to_bool.
    unfold_handler. simpl. rewrite Hm. simpl. rewrite Hs. simpl.
    rewrite Hd. simpl. auto.
Qed.

(** X18: every response [BindHandler] starts, rejections included, is
    sent with the header [Accept: application/json]; the one run that
    starts no response is the body [null], on which the handler
    dereferences the nil [bindReq], panics and writes nothing. *)
Theorem BindHandler_Accept_header (r : Request) (s0 : hstate) :
  respSent (resp s0) = None ->
  let res := Bind r s0 in
  (exists code sent,
      respSent (resp (snd res)) = Some (code, sent)
      /\ Values_Get "Accept" sent = "application/json"
      /\ fst res = Returned tt)
  \/ (Body r = DecodeNull
      /\ fst res = Panicked
      /\ respSent (resp (snd res)) = None
      /\ respBody (resp (snd res)) = respBody (resp s0)
      /\ hcalls (snd res) = hcalls s0).
Proof.
  intros H0 res. subst res. start_from s0 H0.
  assert (HA : forall h : Values,
             Values_Get "Accept" (Values_Set "Accept" "application/json" h)
             = "application/json") by (intros; apply Values_Get_Set).
  assert (HB : forall h : Values,
             Values_Get "Accept"
               (Values_Set "Allow" "POST" (Values_Set "Accept" "application/json" h))
             = "application/json").
  { intros h. unfold Values_Get, Values_Set.
    rewrite lookup_insert_ne by discriminate. rewrite lookup_insert_eq. reflexivity. }
  unfold_handler. simpl.
  destruct (Method r =? MethodPost)%string; simpl;
    [|left; eexists; eexists; split; [reflexivity|]; split; [apply HB | reflexivity]].
  destruct (Values_Get "Content-Type" (ReqHeader r) =? "application/json")%string; simpl;
    [|left; eexists; eexists; split; [reflexivity|]; split; [apply HA | reflexivity]].
  destruct (Body r) as [err| |req]; simpl;
    [left; eexists; eexists; split; [reflexivity|]; split; [apply HA | reflexivity]
    |right; repeat split |].
  destruct (str_empty (SkyAddr req)); simpl;
    [left; eexists; eexists; split; [reflexivity|]; split; [apply HA | reflexivity]|].
  destruct (ReqCoinType req =? CoinTypeBTC)%string; simpl;
    [|destruct (ReqCoinType req =? "")%string; simpl];
    destruct (DecodeBase58Address (SkyAddr req)); simpl;
    destruct (After (UTC now) (UTC (StartAt (Config hs)))); simpl;
    destruct (BindAddress svc (SkyAddr req)) as [btcAddr [e|]]; simpl;
    left; eexists; eexists; (split; [reflexivity|]); (split; [apply HA | reflexivity]).
Qed.

End HandlerBehaviour.

(** ** The further properties on the sample inputs *)

Lemma Validate_nil_iff_well_formed_witness : well_formed cfg_both_listeners.
Proof. apply (proj1 (Validate_nil_iff_well_formed cfg_both_listeners)). reflexivity. Defined.


Lemma Run_error_origin_witness :
  exists err,
    Run_listen world_bind_failure (Run_setup sample_hs) = Returned (Some err)
    /\ "http serve failed: listen tcp 127.0.0.1:7071: bind: address already in use"
       = "http serve failed: " +:+ err
    /\ quit (meanwhile world_bind_failure (Run_setup sample_hs)) <> ChanClosed
    /\ (HTTPAddr (Config sample_hs) <> "" -> HTTPSAddr (Config sample_hs) <> "" ->
        dualSelect world_bind_failure = RecvErr err).
Proof.
  apply (Run_error_origin world_bind_failure sample_hs). reflexivity.
Defined.

Lemma Run_setup_listeners_witness :
  (exists ln, httpListener (Run_setup (newHTTPServer cfg_both_listeners)) = Some ln
              /\ Addr ln = "127.0.0.1:7071" /\ ServerTLSConfig ln = None
              /\ ReadTimeout ln = Second * 10 /\ WriteTimeout ln = Second * 60
              /\ IdleTimeout ln = Second * 120)
  /\ (exists ln, httpsListener (Run_setup (newHTTPServer cfg_both_listeners)) = Some ln
                 /\ Addr ln = "0.0.0.0:443"
                 /\ ReadTimeout ln = Second * 10 /\ WriteTimeout ln = Second * 60
                 /\ IdleTimeout ln = Second * 120).
Proof.
  destruct (Run_setup_listeners (newHTTPServer cfg_both_listeners)) as (H1 & H2 & _).
  split.
  - apply H1. simpl. discriminate.
  - apply H2. simpl. discriminate.
Defined.

Lemma Run_https_certificates_witness :
  ServerTLSConfig (fst (fst (Run_httpsListener cfg_auto_tls)))
  = Some {| autocertHost := "teller.example.com"; autocertCache := "cert-cache" |}
  /\ snd (fst (Run_httpsListener cfg_cert_pair)) = "cert.pem"
  /\ snd (Run_httpsListener cfg_cert_pair) = "key.pem".
Proof.
  split.
  - destruct (Run_https_certificates cfg_auto_tls) as [(_ & H & _) | (Ha & _)].
    + reflexivity.
    + simpl. discriminate.
    + exact H.
    + discriminate Ha.
  - destruct (Run_https_certificates cfg_cert_pair) as [(Ha & _) | (_ & _ & Hc & Hk & _)].
    + reflexivity.
    + simpl. discriminate.
    + exfalso. apply Ha. reflexivity.
    + split; [exact Hc | exact Hk].
Defined.

Lemma Run_redirect_iff_https_witness :
  SSLRedirect (Run_secureMiddleware cfg_cert_pair) = true
  /\ SSLHost (Run_secureMiddleware cfg_cert_pair) <> "".
Proof.
  destruct (Run_redirect_iff_https cfg_cert_pair eq_refl) as [H1 H2].
  split.
  - apply H1. simpl. discriminate.
  - apply H2. simpl. discriminate.
Defined.

Lemma Shutdown_returns_iff_witness :
  (exists evs hs', Shutdown (fun _ => Some "context deadline exceeded")
                     (Run_setup sample_hs) = (evs, Returned hs'))
  /\ httpListener (Shutdown_done (fun _ => None) (Run_setup sample_hs))
     = httpListener (Run_setup sample_hs).
Proof.
  split.
  - apply (proj1 (proj1 (Shutdown_returns_iff (fun _ => Some "context deadline exceeded")
                           (Run_setup sample_hs)))).
    simpl. discriminate.
  - apply (proj2 (Shutdown_returns_iff (fun _ => None) (Run_setup sample_hs))
             (fst (Shutdown (fun _ => None) (Run_setup sample_hs)))).
    reflexivity.
Defined.

Lemma Shutdown_closes_and_drains_witness :
  let hs1 := Run_setup (newHTTPServer cfg_both_listeners) in
  let evs := fst (Shutdown (fun _ => Some "context deadline exceeded") hs1) in
  count_close evs = 1%nat
  /\ (quit hs1 = ChanOpen -> head evs = Some EvCloseQuit)
  /\ map (fun d => (fst (fst d), snd d)) (drained evs)
     = [("HTTP", Second * 5); ("HTTPS", Second * 5)].
Proof.
  intros hs1 evs.
  destruct (Shutdown_closes_and_drains (fun _ => Some "context deadline exceeded") hs1 evs
              (Shutdown_done (fun _ => Some "context deadline exceeded") hs1) eq_refl)
    as (Hc & Hh & Hd).
  split; [exact Hc|]. split; [exact Hh|]. rewrite Hd. reflexivity.
Defined.

Lemma Shutdown_twice_drains_again_witness :
  let hs1 := Run_setup sample_hs in
  exists evs2 hs2,
    Shutdown (fun _ => None) (Shutdown_done (fun _ => None) hs1) = (evs2, Returned hs2)
    /\ drained evs2 = drained (fst (Shutdown (fun _ => None) hs1))
    /\ count_close evs2 = 0%nat.
Proof.
  intros hs1.
  apply (Shutdown_twice_drains_again (fun _ => None) hs1
           (fst (Shutdown (fun _ => None) hs1)) (Shutdown_done (fun _ => None) hs1)).
  reflexivity.
Defined.

Lemma Run_setup_after_Shutdown_witness :
  Run_setup (Shutdown_done (fun _ => None) (Run_setup sample_hs)) = Run_setup sample_hs
  /\ quit (Run_setup (Shutdown_done (fun _ => None) (Run_setup sample_hs))) = ChanOpen.
Proof.
  apply (Run_setup_after_Shutdown (fun _ => None) sample_hs
           (fst (Shutdown (fun _ => None) (Run_setup sample_hs)))).
  reflexivity.
Defined.

Lemma Run_suppresses_iff_gate_closed_witness :
  snd (Run world_Shutdown_draining sample_hs) = Returned None
  /\ snd (Run world_bind_failure sample_hs)
     = Returned (Some ("http serve failed: "
                       +:+ "listen tcp 127.0.0.1:7071: bind: address already in use")).
Proof.
  split.
  - apply (proj1 (Run_suppresses_iff_gate_closed world_Shutdown_draining sample_hs
                    "http: Server closed" eq_refl)).
    reflexivity.
  - apply (proj2 (Run_suppresses_iff_gate_closed world_bind_failure sample_hs
                    "listen tcp 127.0.0.1:7071: bind: address already in use" eq_refl)).
    simpl. discriminate.
Defined.

Lemma validMethod_spec_witness :
  snd (validMethod sample_status_request [MethodGet; MethodPost] hstate0) = hstate0
  /\ Values_Get "Allow"
       (respHeader (resp (snd (validMethod sample_status_request
                                 [MethodPost; "PUT"] hstate0))))
     = "POST, PUT".
Proof.
  split.
  - destruct (validMethod_spec sample_status_request [MethodGet; MethodPost] hstate0)
      as (Hin & Hsame & _).
    apply Hsame. apply Hin. left. reflexivity.
  - destruct (validMethod_spec sample_status_request [MethodPost; "PUT"] hstate0)
      as (_ & _ & Hrej).
    apply Hrej. reflexivity.
Defined.

Lemma BindHandler_success_witness :
  let res := sample_Bind_run sample_service 2000
               (sample_bind_body (Decoded {| SkyAddr := sample_skyAddr;
                                             ReqCoinType := "BTC" |})) in
  fst res = Returned tt
  /\ respStatus (resp (snd res)) = Some StatusOK
  /\ respBody (resp (snd res))
     = [JSONBody (marshal_BindResponse
                    {| DepositAddress := sample_btcAddr; CoinType := "BTC" |})]
  /\ hcalls (snd res) = [CallBindAddress sample_skyAddr].
Proof.
  apply (BindHandler_success "BTC" string sample_DecodeBase58Address sample_formatTime
           sample_service sample_hs 2000
           (sample_bind_body (Decoded {| SkyAddr := sample_skyAddr; ReqCoinType := "BTC" |}))
           hstate0 {| SkyAddr := sample_skyAddr; ReqCoinType := "BTC" |} sample_btcAddr).
  - reflexivity.
  - reflexivity.
  - vm_compute. reflexivity.
  - reflexivity.
  - simpl. discriminate.
  - reflexivity.
  - reflexivity.
  - simpl. lia.
  - reflexivity.
Defined.

Lemma handlers_service_error_witness :
  respBody (resp (snd (sample_Bind_run sample_failing_service 2000
                         (sample_bind_body (Decoded {| SkyAddr := sample_skyAddr;
                                                       ReqCoinType := "BTC" |})))))
  = [ErrorBody StatusBadRequest ["max bound addresses reached"]]
  /\ respBody (resp (snd (sample_Status_run sample_failing_service 2000
                            (sample_status_for sample_skyAddr))))
     = [ErrorBody StatusBadRequest ["deposit store unavailable"]].
Proof.
  assert (Hnow : (StartAt (Config sample_hs) < 2000)%Z) by (simpl; lia).
  split.
  - destruct (proj1 (handlers_service_error "BTC" string JString sample_DecodeBase58Address
                       sample_formatTime sample_failing_service sample_hs 2000
                       (sample_bind_body (Decoded {| SkyAddr := sample_skyAddr;
                                                     ReqCoinType := "BTC" |}))
                       hstate0 "max bound addresses reached" eq_refl Hnow)
                {| SkyAddr := sample_skyAddr; ReqCoinType := "BTC" |} "")
      as (_ & Hb & _).
    + reflexivity.
    + vm_compute. reflexivity.
    + reflexivity.
    + simpl. discriminate.
    + reflexivity.
    + reflexivity.
    + reflexivity.
    + exact Hb.
  - destruct (proj2 (handlers_service_error "BTC" string JString sample_DecodeBase58Address
                       sample_formatTime sample_failing_service sample_hs 2000
                       (sample_status_for sample_skyAddr)
                       hstate0 "deposit store unavailable" eq_refl Hnow) [])
      as (_ & Hb & _).
    + reflexivity.
    + vm_compute. discriminate.
    + vm_compute. reflexivity.
    + vm_compute. reflexivity.
    + exact Hb.
Defined.

Lemma handlers_bad_request_witness :
  hlog (snd (sample_Bind_run sample_service 2000 (sample_bind_body (DecodeError "EOF"))))
  = [{| log_level_of := InfoLevel; log_status := Some StatusBadRequest;
        log_error := Some "Invalid json request body: EOF"; log_msg := "" |}]
  /\ respStatus (resp (snd (sample_Bind_run sample_service 2000
                              (sample_bind_body (Decoded {| SkyAddr := "";
                                                            ReqCoinType := "BTC" |})))))
     = Some StatusBadRequest
  /\ respBody (resp (snd (sample_Status_run sample_service 2000 (sample_status_for ""))))
     = [ErrorBody StatusBadRequest []].
Proof.
  split; [|split].
  - destruct (proj1 (handlers_bad_request "BTC" string JString sample_DecodeBase58Address
                       sample_formatTime sample_service sample_hs 2000
                       (sample_bind_body (DecodeError "EOF")) hstate0 eq_refl)
                eq_refl) as [Herr _].
    + vm_compute. reflexivity.
    + destruct (Herr "EOF" eq_refl) as (_ & _ & Hl & _). exact Hl.
  - destruct (proj1 (handlers_bad_request "BTC" string JString sample_DecodeBase58Address
                       sample_formatTime sample_service sample_hs 2000
                       (sample_bind_body (Decoded {| SkyAddr := ""; ReqCoinType := "BTC" |}))
                       hstate0 eq_refl)
                eq_refl) as [_ Hempty].
    + vm_compute. reflexivity.
    + destruct (Hempty {| SkyAddr := ""; ReqCoinType := "BTC" |} eq_refl eq_refl)
        as (Hst & _). exact Hst.
  - destruct (proj2 (handlers_bad_request "BTC" string JString sample_DecodeBase58Address
                       sample_formatTime sample_service sample_hs 2000
                       (sample_status_for "") hstate0 eq_refl))
      as (_ & Hb & _).
    + reflexivity.
    + vm_compute. reflexivity.
    + exact Hb.
Defined.

Lemma handlers_invalid_address_witness :
  respBody (resp (snd (sample_Bind_run sample_service 2000
                         (sample_bind_body (Decoded {| SkyAddr := "abc";
                                                       ReqCoinType := "BTC" |})))))
  = [ErrorBody StatusBadRequest ["Invalid skycoin address: Invalid base58 character"]]
  /\ hcalls (snd (sample_Status_run sample_service 2000 (sample_status_for "abc"))) = [].
Proof.
  split.
  - destruct (proj1 (handlers_invalid_address "BTC" string JString
                       sample_DecodeBase58Address sample_formatTime sample_service
                       sample_hs 2000
                       (sample_bind_body (Decoded {| SkyAddr := "abc";
                                                     ReqCoinType := "BTC" |}))
                       hstate0 "Invalid base58 character" eq_refl)
                {| SkyAddr := "abc"; ReqCoinType := "BTC" |})
      as (_ & Hb & _).
    + reflexivity.
    + vm_compute. reflexivity.
    + reflexivity.
    + simpl. discriminate.
    + reflexivity.
    + reflexivity.
    + exact Hb.
  - destruct (proj2 (handlers_invalid_address "BTC" string JString
                       sample_DecodeBase58Address sample_formatTime sample_service
                       sample_hs 2000 (sample_status_for "abc")
                       hstate0 "Invalid base58 character" eq_refl))
      as (_ & _ & Hc).
    + reflexivity.
    + vm_compute. discriminate.
    + vm_compute. reflexivity.
    + exact Hc.
Defined.

Lemma BindHandler_Accept_header_witness :
  (exists code sent,
      respSent (resp (snd (sample_Bind_run sample_service 2000
                             (sample_bind_request "GET" "text/plain" "BTC"))))
      = Some (code, sent)
      /\ Values_Get "Accept" sent = "application/json"
      /\ fst (sample_Bind_run sample_service 2000
                (sample_bind_request "GET" "text/plain" "BTC")) = Returned tt)
  /\ fst (sample_Bind_run sample_service 2000 (sample_bind_body DecodeNull)) = Panicked.
Proof.
  split.
  - destruct (BindHandler_Accept_header "BTC" string sample_DecodeBase58Address
                sample_formatTime sample_service sample_hs 2000
                (sample_bind_request "GET" "text/plain" "BTC") hstate0 eq_refl)
      as [H | (Hb & _)].
    + exact H.
    + discriminate Hb.
  - destruct (BindHandler_Accept_header "BTC" string sample_DecodeBase58Address
                sample_formatTime sample_service sample_hs 2000
                (sample_bind_body DecodeNull) hstate0 eq_refl)
      as [(code & sent & _ & _ & Hr) | (_ & Hp & _)].
    + vm_compute in Hr. discriminate Hr.
    + exact Hp.
Defined.

Lemma StatusHandler_nonempty_list_witness :
  let s := snd (sample_Status_run sample_deposit_service 2000
                  (sample_status_for sample_skyAddr)) in
  respStatus (resp s) = Some StatusOK
  /\ exists doc, respBody (resp s) = [JSONBody doc]
                 /\ json_field "statuses" doc
                    = Some (JArray [JString "waiting_send"; JString "done"]).
Proof.
  apply (StatusHandler_nonempty_list string JString sample_DecodeBase58Address
           sample_formatTime sample_deposit_service sample_hs 2000
           (sample_status_for sample_skyAddr) hstate0 "waiting_send" ["done"]).
  - reflexivity.
  - reflexivity.
  - vm_compute. discriminate.
  - vm_compute. reflexivity.
  - simpl. lia.
  - vm_compute. reflexivity.
Defined.

Lemma StatusHandler_one_body_witness :
  length (respBody (resp (snd (sample_Status_run sample_failing_service 1000
                                 (sample_status_for "abc"))))) = 1%nat.
Proof.
  apply (StatusHandler_one_body string JString sample_DecodeBase58Address
           sample_formatTime sample_failing_service sample_hs 1000
           (sample_status_for "abc") hstate0).
  reflexivity.
Defined.

Lemma BindHandler_one_body_witness :
  length (respBody (resp (snd (sample_Bind_run sample_failing_service 2000
                                 (sample_bind_request "POST" "application/json" "BTC")))))
  = 1%nat.
Proof.
  apply (BindHandler_one_body "BTC" string sample_DecodeBase58Address
           sample_formatTime sample_failing_service sample_hs 2000
           (sample_bind_request "POST" "application/json" "BTC") hstate0).
  - reflexivity.
  - simpl. discriminate.
  - simpl. intros req Hb _. inversion Hb. reflexivity.
Defined.

Lemma BindHandler_bad_coin_type_witness :
  let s := snd (sample_Bind_run sample_service 2000
                  (sample_bind_request "POST" "application/json" "LTC")) in
  respStatus (resp s) = Some StatusBadRequest
  /\ (exists b, respBody (resp s) = [ErrorBody StatusBadRequest []; b])
  /\ hcalls s = [CallBindAddress sample_skyAddr].
Proof.
  destruct (BindHandler_bad_coin_type "BTC" string sample_DecodeBase58Address
              sample_formatTime sample_service sample_hs 2000
              (sample_bind_request "POST" "application/json" "LTC") hstate0
              {| SkyAddr := sample_skyAddr; ReqCoinType := "LTC" |})
    as (Hst & Hb & Hc).
  - reflexivity.
  - reflexivity.
  - vm_compute. reflexivity.
  - reflexivity.
  - simpl. discriminate.
  - simpl. discriminate.
  - split; [exact Hst|]. split; [exact Hb|]. apply Hc.
    + reflexivity.
    + simpl. lia.
Defined.
